(** * stackdriver-errors-js: the error resolution and delivery pipeline

    A shallow embedding of [src/stackdriver-errors.js] and the properties
    its specification states about it.

    The library is promise-based JavaScript.  The embedding keeps
    - JavaScript values as an inductive type, objects as finite maps from
      property names to values;
    - the one object that is shared and mutated in place (the reporter's
      [context]) in a store of objects addressed by location, so that the
      payload holds a reference to it, as in the source;
    - a promise as its final state (fulfilled, rejected, or never settled);
    - the collaborators the source calls but does not define (the stack-trace
      resolver, the browser's [window], the XMLHttpRequest responses) as an
      [Ambient] record handed to each call;
    - the calls made to those collaborators as a list of events. *)

From Stdlib Require Import Ascii.
From stdpp Require Import base strings gmap list pretty.

Local Open Scope string_scope.

(** ** JavaScript values *)

Module Js.

(** Primitive values.  Numbers are the non-negative integers the library
    meets (line and column numbers, HTTP status codes). *)
Inductive prim :=
  | Undefined
  | Null
  | Str (s : string)
  | Num (n : N).

(** A value is a primitive or an object literal. *)
#[warnings="-register-all"]
Inductive value :=
  | Prim (p : prim)
  | Obj (fields : gmap string value).

(** [o.k]: reading a property that is not there gives [undefined]. *)
Definition get (o : gmap string value) (k : string) : value :=
  default (Prim Undefined) (o !! k).

(** Truthiness of an optional string: [undefined] and [""] are falsy. *)
Definition truthy (o : option string) : bool :=
  match o with
  | Some (String _ _) => true
  | _ => false
  end.

(** [a || b] on strings, [a] possibly undefined. *)
Definition or_else (a : option string) (b : string) : string :=
  match a with
  | Some (String c s) => String c s
  | _ => b
  end.

(** ToString as string concatenation [+] applies it. *)
Definition to_string (o : option string) : string :=
  default "undefined" o.

(** ToString as [Array.prototype.join] applies it to an element:
    [undefined] and [null] become the empty string. *)
Definition join_elem (p : prim) : string :=
  match p with
  | Undefined | Null => ""
  | Str s => s
  | Num n => pretty n
  end.

Definition of_string (o : option string) : prim :=
  match o with Some s => Str s | None => Undefined end.

Definition of_number (o : option N) : prim :=
  match o with Some n => Num n | None => Undefined end.

(** [l.join(sep)] on elements already converted to strings. *)
Fixpoint join (sep : string) (l : list string) : string :=
  match l with
  | [] => ""
  | [x] => x
  | x :: xs => x ++ sep ++ join sep xs
  end.

(** [s.split(sep)] for a one-character separator: always at least one
    segment. *)
Fixpoint split (sep : Ascii.ascii) (s : string) : list string :=
  match s with
  | "" => [""]
  | String c s' =>
      if Ascii.eqb c sep then "" :: split sep s'
      else match split sep s' with
           | x :: xs => String c x :: xs
           | [] => [String c ""]
           end
  end.

(** The line feed character, ['\n'] in a JavaScript string literal. *)
Definition newline : string := String (Ascii.ascii_of_nat 10) "".

(** The two characters backslash and [n], ['\\n'] in a JavaScript string
    literal. *)
Definition escaped_newline : string :=
  String (Ascii.ascii_of_nat 92) (String (Ascii.ascii_of_nat 110) "").

(** [Error.prototype.toString] for an error named [name] with message
    [msg]. *)
Definition error_to_string (name msg : string) : string :=
  match name, msg with
  | "", _ => msg
  | _, "" => name
  | _, _ => name ++ ": " ++ msg
  end.

End Js.

Import Js.

(** ** Promises and thrown values *)

(** What a [throw] or a rejection carries. *)
Inductive Thrown :=
  | ErrorObj (message : string)   (* [new Error(message)] *)
  | TypeError                     (* raised by the engine on [undefined.f] *)
  | Val (v : value).              (* any value that is not an Error *)

(** [x instanceof Error] *)
Definition instanceof_Error (t : Thrown) : bool :=
  match t with
  | ErrorObj _ | TypeError => true
  | Val _ => false
  end.

(** The final state of a promise. *)
Inductive Promise (A E : Type) :=
  | Fulfilled (a : A)
  | Rejected (e : E)
  | Pending.
Arguments Fulfilled {A E} a.
Arguments Rejected {A E} e.
Arguments Pending {A E}.

(** A promise settles once: later calls of [resolve] or [reject] are
    ignored. *)
Definition settle {A E} (p new : Promise A E) : Promise A E :=
  match p with
  | Pending => new
  | _ => p
  end.

(** ** Data model *)

(** An exception-like object: its [toString()] and the [file], [line] and
    [column] properties it may carry. *)
Record ExceptionLike := {
  toString : string;
  file : prim;
  line : prim;
  column : prim;
}.

(** [new Error(msg)]: a standard Error has none of [file], [line],
    [column]. *)
Definition new_Error (msg : string) : ExceptionLike :=
  {| toString := error_to_string "Error" msg;
     file := Undefined; line := Undefined; column := Undefined |}.

(** The argument of [report]: the documented [{Error|String}], and the two
    empty values a caller may pass instead. *)
Inductive RawError :=
  | RUndefined
  | RNull
  | RString (s : string)         (* [typeof err == 'string'] *)
  | RStringObject (s : string)   (* [err instanceof String] *)
  | RError (e : ExceptionLike).

(** [!err] *)
Definition falsy (err : RawError) : bool :=
  match err with
  | RUndefined | RNull | RString "" => true
  | _ => false
  end.

(** A frame of stacktrace-js; every getter may return [undefined]. *)
Record StackFrame := {
  getFunctionName : option string;
  getFileName : option string;
  getLineNumber : option N;
  getColumnNumber : option N;
}.

(** What a rejected [StackTrace.fromError] carries, as far as the library
    looks at it: a primitive, or an object with its string form. *)
Inductive Reason :=
  | ReasonPrim (p : prim)
  | ReasonObj (str : string).

Definition reason_join_elem (r : Reason) : string :=
  match r with
  | ReasonPrim p => join_elem p
  | ReasonObj s => s
  end.

Record ServiceContext := {
  service : string;
  version : option string;
}.

(** Objects mutated in place live in a store. *)
Definition loc := positive.
Abbreviation heap := (gmap loc (gmap string value)).

(** [l.k = v] on the object at [l]. *)
Definition obj_set (l : loc) (k : string) (v : value) (h : heap) : heap :=
  alter (insert k v) l h.

(** The object at [l]. *)
Definition deref (h : heap) (l : loc) : gmap string value :=
  default ∅ (h !! l).

(** The payload object: [context] is a reference. *)
Record Payload := {
  p_serviceContext : ServiceContext;
  p_context : loc;
  p_message : option string;
}.

(** A payload as its receiver reads it: through the reference. *)
Record PayloadView := {
  pv_serviceContext : ServiceContext;
  pv_context : gmap string value;
  pv_message : option string;
}.

Definition view (p : Payload) (h : heap) : PayloadView :=
  {| pv_serviceContext := p_serviceContext p;
     pv_context := deref h (p_context p);
     pv_message := p_message p |}.

(** The [config] argument of [start]. *)
Record Config := {
  cfg_key : option string;
  cfg_projectId : option string;
  cfg_targetUrl : option string;
  cfg_customReportingFunction : option (PayloadView → Promise value Thrown);
  cfg_customMessageTranslator : option (string → string);
  cfg_context : option loc;
  cfg_basePath : option string;
  cfg_service : option string;
  cfg_version : option string;
  cfg_reportUncaughtExceptions : option bool;
  cfg_reportUnhandledPromiseRejections : option bool;
  cfg_disabled : option bool;
}.

(** The fields of a started reporter. *)
Record Reporter := {
  customReportingFunction : option (PayloadView → Promise value Thrown);
  customMessageTranslator : option (string → string);
  apiKey : option string;
  projectId : option string;
  targetUrl : option string;
  context : loc;
  basePath : option string;
  serviceContext : ServiceContext;
  reportUncaughtExceptions : bool;
  reportUnhandledPromiseRejections : bool;
  disabled : bool;
}.

(** The [options] argument of [report]. *)
Record Options := {
  skipLocalFrames : option nat;
}.

(** The handlers held by [window.onerror] and
    [window.onunhandledrejection]. *)
Inductive Handler :=
  | PageHandler (id : nat)
  | Noop
  | ReportingOnError (old : Handler)
  | ReportingOnRejection (old : Handler).

Record Window := {
  onerror : option Handler;
  onunhandledrejection : option Handler;
}.

(** What the environment answers during one call of [report]. *)
Record Ambient := {
  userAgent : string;                (* [window.navigator.userAgent] *)
  href : string;                     (* [window.location.href] *)
  fromError : ExceptionLike → Promise (list StackFrame) Reason;
  xhr_events : list (N * N);         (* [readyState], [status] at each
                                        readystatechange *)
}.

(** Calls made to collaborators. *)
Inductive Event :=
  | EvFromError (e : ExceptionLike)
  | EvCustom (p : PayloadView)
  | EvXhrPost (url contentType : string) (body : PayloadView).

Definition is_delivery (e : Event) : bool :=
  match e with
  | EvFromError _ => false
  | EvCustom _ | EvXhrPost _ _ _ => true
  end.

Definition deliveries (t : list Event) : list Event := filter is_delivery t.

(** ** The operations of [stackdriver-errors.js] *)

Definition baseAPIUrl : string :=
  "https://clouderrorreporting.googleapis.com/v1beta1/projects/".

(** *** [registerHandlers] *)

Definition registerHandlers (reporter : Reporter) (w : Window) : Window :=
  let w1 :=
    if reportUncaughtExceptions reporter then
      let oldErrorHandler := default Noop (onerror w) in
      {| onerror := Some (ReportingOnError oldErrorHandler);
         onunhandledrejection := onunhandledrejection w |}
    else w in
  if reportUnhandledPromiseRejections reporter then
    let oldPromiseRejectionHandler := default Noop (onunhandledrejection w1) in
    {| onerror := onerror w1;
       onunhandledrejection :=
         Some (ReportingOnRejection oldPromiseRejectionHandler) |}
  else w1.

(** *** [start] *)

(** [start] either throws or leaves a reporter, the window with its handlers
    and the store.  [config.context || {}] allocates the empty object when
    the configuration brings none. *)
Definition start (config : Config) (w : Window) (h : heap)
  : Thrown + (Reporter * Window * heap) :=
  if negb (truthy (cfg_key config)) && negb (truthy (cfg_targetUrl config))
     && negb (bool_decide (is_Some (cfg_customReportingFunction config)))
  then inl (ErrorObj "Cannot initialize: No API key, target url or custom reporting function provided.")
  else
  if negb (truthy (cfg_projectId config)) && negb (truthy (cfg_targetUrl config))
     && negb (bool_decide (is_Some (cfg_customReportingFunction config)))
  then inl (ErrorObj "Cannot initialize: No project ID, target url or custom reporting function provided.")
  else
    let '(ctx, h1) :=
      match cfg_context config with
      | Some l => (l, h)
      | None => let l := fresh (dom h) in (l, <[l := ∅]> h)
      end in
    let this :=
      {| customReportingFunction := cfg_customReportingFunction config;
         customMessageTranslator := cfg_customMessageTranslator config;
         apiKey := cfg_key config;
         projectId := cfg_projectId config;
         targetUrl := cfg_targetUrl config;
         context := ctx;
         basePath := cfg_basePath config;
         serviceContext :=
           {| service := or_else (cfg_service config) "web";
              version := if truthy (cfg_version config)
                         then cfg_version config else None |};
         reportUncaughtExceptions :=
           negb (bool_decide (cfg_reportUncaughtExceptions config = Some false));
         reportUnhandledPromiseRejections :=
           negb (bool_decide
                   (cfg_reportUnhandledPromiseRejections config = Some false));
         disabled := default false (cfg_disabled config) |} in
    inr (this, registerHandlers this w, h1).

(** *** [resolveError] *)

(** One line of the reconstructed stack, the array literal joined with
    [''] in the first loop. *)
Definition frame_line (f : StackFrame) : string :=
  join "" [ "    at ";
            or_else (getFunctionName f) "<anonymous>"; " (";
            join_elem (of_string (getFileName f)); ":";
            join_elem (of_number (getLineNumber f)); ":";
            join_elem (of_number (getColumnNumber f)); ")" ].

(** [for (let s = firstFrameIndex; s < stack.length; s++) lines.push(...)],
    with [n] bounding the iterations left. *)
Fixpoint push_lines (n s : nat) (stack : list StackFrame) (lines : list string)
  : list string :=
  match n with
  | 0 => lines
  | S n' =>
      match stack !! s with
      | Some f => push_lines n' (S s) stack (lines ++ [frame_line f])
      | None => lines
      end
  end.

(** [filePathList[e].split("?")[0]] *)
Definition before_query (segment : string) : string :=
  default "" (head (split "?"%char segment)).

(** [for (let e = 3; e < filePathList.length; e++) fileName.push(...)] *)
Fixpoint push_segments (n e : nat) (filePathList fileName : list string)
  : list string :=
  match n with
  | 0 => fileName
  | S n' =>
      match filePathList !! e with
      | Some seg =>
          push_segments n' (S e) filePathList (fileName ++ [before_query seg])
      | None => fileName
      end
  end.

(** The object literal returned beside the message. *)
Definition location_object (filePath : string) (lineNumber : option N)
    (functionName : string) : value :=
  Obj (<["filePath" := Prim (Str filePath)]>
       (<["lineNumber" := Prim (of_number lineNumber)]>
        (<["functionName" := Prim (Str functionName)]> ∅))).

(** The message of the rejection handler. *)
Definition degraded_message (reason : Reason) (err : ExceptionLike) : string :=
  join "" [ "Error extracting stack trace: "; reason_join_elem reason; newline;
            toString err; newline;
            "    ("; join_elem (file err); ":"; join_elem (line err); ":";
            join_elem (column err); ")" ].

(** [resolveError(err, firstFrameIndex, fileBasePath)], given how
    [StackTrace.fromError(err)] settles.  Reading a property of
    [stack[firstFrameIndex]] when there is no such frame, or calling [split]
    on a file name that is [undefined], throws inside the fulfilment
    handler, which rejects the promise [then] returns. *)
Definition resolveError (resolved : Promise (list StackFrame) Reason)
    (err : ExceptionLike) (firstFrameIndex : nat) (fileBasePath : option string)
  : Promise (string * value) Thrown :=
  match resolved with
  | Fulfilled stack =>
      let lines :=
        push_lines (length stack - firstFrameIndex) firstFrameIndex stack
          [toString err] in
      match stack !! firstFrameIndex with
      | None => Rejected TypeError
      | Some frame =>
          match getFileName frame with
          | None => Rejected TypeError
          | Some path =>
              let filePathList := split "/"%char path in
              let fileName :=
                push_segments (length filePathList - 3) 3 filePathList [] in
              let fileName :=
                to_string fileBasePath ++ "/" ++ join "/" fileName in
              Fulfilled
                (join escaped_newline lines,
                 location_object fileName (getLineNumber frame)
                   (or_else (getFunctionName frame) "<anonymous>"))
          end
      end
  | Rejected reason => Fulfilled (degraded_message reason err, Obj ∅)
  | Pending => Pending
  end.

(** *** [sendErrorPayload] *)

(** The object literal rejected with on a 429. *)
Definition Http429FakeError : value :=
  Obj (<["message" := Prim (Str "quota or rate limiting error on stackdriver report")]>
       (<["name" := Prim (Str "Http429FakeError")]> ∅)).

(** One run of [xhr.onreadystatechange], [p] being the promise so far. *)
Definition onreadystatechange (payload : Payload) (readyState code : N)
    (p : Promise value Thrown) : Promise value Thrown :=
  if (readyState =? 4)%N then
    if (200 <=? code)%N && (code <? 300)%N then
      settle p (Fulfilled (Obj {["message" := Prim (of_string (p_message payload))]}))
    else if (code =? 429)%N then
      settle p (Rejected (Val Http429FakeError))
    else
      let condition :=
        if (code =? 0)%N then "network error"
        else pretty code ++ " http response" in
      settle p (Rejected (ErrorObj (condition ++ " on stackdriver report")))
  else p.

(** [sendErrorPayload(url, payload)]: the request sent, and the promise as
    the readystatechange events [events] leave it. *)
Definition sendErrorPayload (events : list (N * N)) (url : string)
    (payload : Payload) (h : heap) : Promise value Thrown * list Event :=
  (fold_left (λ p ev, onreadystatechange payload ev.1 ev.2 p) events Pending,
   [EvXhrPost url "application/json; charset=UTF-8" (view payload h)]).

(** *** [report] *)

(** [options.skipLocalFrames || 1] *)
Definition skip_or_1 (options : Options) : nat :=
  match skipLocalFrames options with
  | Some (S n) => S n
  | _ => 1
  end.

Definition is_string (err : RawError) : bool :=
  match err with
  | RString _ | RStringObject _ => true
  | _ => false
  end.

(** The value of [firstFrameIndex] when [resolveError] is called. *)
Definition firstFrameIndex (err : RawError) (options : Options) : nat :=
  if is_string err then skip_or_1 options else 0.

(** The value of [err] when [resolveError] is called: a string has been
    thrown and caught as [new Error(err)].  [undefined] and [null] have left
    [report] before. *)
Definition promoted (err : RawError) : option ExceptionLike :=
  match err with
  | RString s | RStringObject s => Some (new_Error s)
  | RError e => Some e
  | RUndefined | RNull => None
  end.

(** [this.targetUrl || (baseAPIUrl + this.projectId + '/events:report?key='
    + this.apiKey)] *)
Definition reportUrl (this : Reporter) : string :=
  or_else (targetUrl this)
    (baseAPIUrl ++ to_string (projectId this) ++ "/events:report?key="
     ++ to_string (apiKey this)).

Definition httpRequest (amb : Ambient) : value :=
  Obj (<["userAgent" := Prim (Str (userAgent amb))]>
       (<["url" := Prim (Str (href amb))]> ∅)).

(** The statements of [report] between the two guards and the call of
    [resolveError]: the payload shell and the write to the shared context. *)
Definition report_prepare (this : Reporter) (amb : Ambient) (h : heap)
  : Payload * heap :=
  let payload :=
    {| p_serviceContext := serviceContext this;
       p_context := context this;
       p_message := None |} in
  (payload, obj_set (p_context payload) "httpRequest" (httpRequest amb) h).

(** The fulfilment handler [report] passes to [then]. *)
Definition report_then (this : Reporter) (amb : Ambient) (payload : Payload)
    (resolved : string * value) (h : heap)
  : Promise value Thrown * list Event * heap :=
  let '(message, reportLocation) := resolved in
  let payload :=
    {| p_serviceContext := p_serviceContext payload;
       p_context := p_context payload;
       p_message :=
         Some (match customMessageTranslator this with
               | Some translate => translate message
               | None => message
               end) |} in
  match customReportingFunction this with
  | Some customFunc => (customFunc (view payload h), [EvCustom (view payload h)], h)
  | None =>
      let h' := obj_set (p_context payload) "reportLocation" reportLocation h in
      let '(p, evs) :=
        sendErrorPayload (xhr_events amb) (reportUrl this) payload h' in
      (p, evs, h')
  end.

(** [report(err, options)]: the promise returned, the calls made, and the
    store afterwards.  The branch for an [err] that cannot be promoted is
    never taken: such an [err] is falsy (lemma [falsy_promoted]). *)
Definition report (this : Reporter) (amb : Ambient) (err : RawError)
    (options : option Options) (h : heap)
  : Promise value Thrown * list Event * heap :=
  if disabled this then (Fulfilled (Prim Null), [], h)
  else if falsy err then (Rejected (ErrorObj "no error to report"), [], h)
  else
    let options := default {| skipLocalFrames := None |} options in
    let '(payload, h1) := report_prepare this amb h in
    match promoted err with
    | None => (Rejected TypeError, [], h1)
    | Some e =>
        match resolveError (fromError amb e) e (firstFrameIndex err options)
                (basePath this) with
        | Fulfilled resolved =>
            let '(p, evs, h2) := report_then this amb payload resolved h1 in
            (p, EvFromError e :: evs, h2)
        | Rejected t => (Rejected t, [EvFromError e], h1)
        | Pending => (Pending, [EvFromError e], h1)
        end
    end.

(** *** [setUser] *)

Definition setUser (this : Reporter) (user : prim) (h : heap) : heap :=
  obj_set (context this) "user" (Prim user) h.

(** ** Reports under way *)

(** One call of [report] with what the environment answers to it. *)
Record Call := {
  c_err : RawError;
  c_options : option Options;
  c_ambient : Ambient;
}.

(** A report between its call and the run of the handler it passed to
    [then]: the payload shell, the environment of the call, and how
    [resolveError] settles. *)
Record InFlight := {
  f_payload : Payload;
  f_ambient : Ambient;
  f_resolved : Promise (string * value) Thrown;
}.

(** The statements of [report] that run when it is called, up to
    [resolveError(...).then(...)] (lines 105-141): the report that is now
    under way, if any, the calls made and the store. *)
Definition report_call (this : Reporter) (c : Call) (h : heap)
  : option InFlight * list Event * heap :=
  if disabled this then (None, [], h)
  else if falsy (c_err c) then (None, [], h)
  else
    let options := default {| skipLocalFrames := None |} (c_options c) in
    let '(payload, h1) := report_prepare this (c_ambient c) h in
    match promoted (c_err c) with
    | None => (None, [], h1)
    | Some e =>
        (Some {| f_payload := payload;
                 f_ambient := c_ambient c;
                 f_resolved :=
                   resolveError (fromError (c_ambient c) e) e
                     (firstFrameIndex (c_err c) options) (basePath this) |},
         [EvFromError e], h1)
    end.

(** The handler passed to [then] (lines 142-154), which runs in a later
    turn, on the store as it is by then: the payload is read through its
    reference to the context when it is handed over or serialised. *)
Definition report_settle (this : Reporter) (f : InFlight) (h : heap)
  : list Event * heap :=
  match f_resolved f with
  | Fulfilled resolved =>
      let '(_, evs, h2) :=
        report_then this (f_ambient f) (f_payload f) resolved h in
      (evs, h2)
  | _ => ([], h)
  end.

(** What the page and the event loop do, one turn at a time: a call of
    [setUser], a call of [report], or the run of the handler of the report
    under way at position [i]. *)
Inductive Step :=
  | StepSetUser (user : prim)
  | StepCall (c : Call)
  | StepSettle (i : nat).

Definition is_setUser (s : Step) : bool :=
  match s with
  | StepSetUser _ => true
  | _ => false
  end.

(** A schedule run from a store and the reports under way: the calls made,
    the store and the reports still under way at the end. *)
Fixpoint run (this : Reporter) (steps : list Step) (h : heap)
    (pending : list InFlight) : list Event * heap * list InFlight :=
  match steps with
  | [] => ([], h, pending)
  | StepSetUser user :: rest => run this rest (setUser this user h) pending
  | StepCall c :: rest =>
      let '(f, t, h1) := report_call this c h in
      let '(t', h2, pending') :=
        run this rest h1 (pending ++ option_list f) in
      ((t ++ t')%list, h2, pending')
  | StepSettle i :: rest =>
      match pending !! i with
      | Some f =>
          let '(t, h1) := report_settle this f h in
          let '(t', h2, pending') := run this rest h1 (delete i pending) in
          ((t ++ t')%list, h2, pending')
      | None => run this rest h pending
      end
  end.

(** Each report settled before the next is called. *)
Definition one_after_another (calls : list Call) : list Step :=
  calls ≫= (λ c, [StepCall c; StepSettle 0]).

(** All reports called in one turn, settled afterwards in the order of the
    calls. *)
Definition all_then_settled (calls : list Call) : list Step :=
  ((StepCall <$> calls) ++ replicate (length calls) (StepSettle 0))%list.

(** A call that gets past the guards of [report] and whose resolution
    yields a message. *)
Definition deliverable (this : Reporter) (c : Call) : Prop :=
  falsy (c_err c) = false
  ∧ ∃ e resolved,
      promoted (c_err c) = Some e
      ∧ resolveError (fromError (c_ambient c) e) e
          (firstFrameIndex (c_err c)
             (default {| skipLocalFrames := None |} (c_options c)))
          (basePath this)
        = Fulfilled resolved.

(** A report under way that is this reporter's: its payload refers to the
    reporter's context. *)
Definition of_reporter (this : Reporter) (f : InFlight) : Prop :=
  p_context (f_payload f) = context this.


(** ** Notions the statements below use *)

(** What a delivery carries. *)
Definition delivered (e : Event) : option PayloadView :=
  match e with
  | EvCustom p | EvXhrPost _ _ p => Some p
  | EvFromError _ => None
  end.

(** The message of the payload once the translator, if any, has run. *)
Definition translated (this : Reporter) (message : string) : string :=
  match customMessageTranslator this with
  | Some translate => translate message
  | None => message
  end.

(** A path segment without its query string: the text before the first
    question mark. *)
Fixpoint strip_query (segment : string) : string :=
  match segment with
  | "" => ""
  | String c rest =>
      if Ascii.eqb c "?"%char then "" else String c (strip_query rest)
  end.

(** The frame index as the specification words it, for strings and for
    exception-like objects alike: the supplied [skipLocalFrames], 1 when
    none is supplied. *)
Definition firstFrameIndex_as_specified (err : RawError) (options : Options)
  : nat :=
  default 1 (skipLocalFrames options).

(** A usable delivery mechanism: an API key together with a project id, or
    a target URL, or a custom reporting function. *)
Definition usable (config : Config) : Prop :=
  (truthy (cfg_key config) = true ∧ truthy (cfg_projectId config) = true)
  ∨ truthy (cfg_targetUrl config) = true
  ∨ is_Some (cfg_customReportingFunction config).

(** ** Concrete data used in examples *)

Module Sample.

Definition frame_a : StackFrame :=
  {| getFunctionName := Some "a";
     getFileName := Some "https://x/y/z/app.js?v=1";
     getLineNumber := Some 10%N; getColumnNumber := Some 2%N |}.

Definition frame_b : StackFrame :=
  {| getFunctionName := None;
     getFileName := Some "https://x/lib/b.js";
     getLineNumber := Some 20%N; getColumnNumber := Some 3%N |}.

Definition exn : ExceptionLike :=
  {| toString := "RangeError: boom"; file := Str "app.js";
     line := Num 3; column := Undefined |}.

Definition ctx : loc := 1%positive.

Definition store : heap := {[ ctx := {[ "user" := Prim (Str "u0") ]} ]}.

Definition http_reporter : Reporter :=
  {| customReportingFunction := None;
     customMessageTranslator := None;
     apiKey := Some "k"; projectId := Some "p"; targetUrl := None;
     context := ctx; basePath := Some "base";
     serviceContext := {| service := "web"; version := None |};
     reportUncaughtExceptions := true;
     reportUnhandledPromiseRejections := true;
     disabled := false |}.

Definition custom_reporter : Reporter :=
  {| customReportingFunction := Some (λ _, Fulfilled (Prim (Str "ok")));
     customMessageTranslator := None;
     apiKey := None; projectId := None; targetUrl := Some "https://t/";
     context := ctx; basePath := Some "base";
     serviceContext := {| service := "web"; version := None |};
     reportUncaughtExceptions := true;
     reportUnhandledPromiseRejections := true;
     disabled := false |}.

Definition disabled_reporter : Reporter :=
  {| customReportingFunction := None;
     customMessageTranslator := None;
     apiKey := Some "k"; projectId := Some "p"; targetUrl := None;
     context := ctx; basePath := None;
     serviceContext := {| service := "web"; version := None |};
     reportUncaughtExceptions := true;
     reportUnhandledPromiseRejections := true;
     disabled := true |}.

(** Resolution succeeds with two frames; the server answers 200. *)
Definition ok_ambient : Ambient :=
  {| userAgent := "UA"; href := "https://x/page";
     fromError := λ _, Fulfilled [frame_a; frame_b];
     xhr_events := [(2, 200); (4, 200)]%N |}.

(** Resolution fails; the server answers 500. *)
Definition failing_ambient : Ambient :=
  {| userAgent := "UA"; href := "https://x/page";
     fromError := λ _, Rejected (ReasonObj "Error: Cannot parse given Error object");
     xhr_events := [(4, 500)]%N |}.

Definition shell : Payload :=
  {| p_serviceContext := {| service := "web"; version := None |};
     p_context := ctx; p_message := Some "m" |}.

Definition call_string : Call :=
  {| c_err := RString "boom"; c_options := None; c_ambient := ok_ambient |}.

Definition call_exn : Call :=
  {| c_err := RError exn; c_options := None; c_ambient := failing_ambient |}.

End Sample.


(** ** Calling the handlers [registerHandlers] installs *)

(** The arguments of [window.onerror]. *)
Record ErrorArgs := {
  ea_message : string;
  ea_source : string;
  ea_lineno : N;
  ea_colno : N;
  ea_error : RawError;
}.

(** What a rejection handler is called with: the browser's
    PromiseRejectionEvent, or the bare value a wrapper hands to the handler
    that was installed before it. *)
Inductive RejectionArg :=
  | FromBrowser (reason : RawError)
  | Passed (v : RawError).

(** What a call of a handler does, in order: calls of [reporter.report],
    whose rejection [.catch(noop)] discards, and calls of the page's own
    handlers.  The page's handlers are taken not to throw. *)
Inductive Action :=
  | ActReport (err : RawError)
  | ActPageOnError (id : nat) (args : ErrorArgs)
  | ActPageOnRejection (id : nat) (arg : RejectionArg).

(** What a call of a handler returns. *)
Inductive Returned :=
  | ReturnedTrue
  | ReturnedUndefined
  | ReturnedByPage (id : nat).

(** A call [handler(message, source, lineno, colno, error)].  The wrapper of
    lines 76-82 reports a truthy [error], calls the handler it replaced with
    the same arguments, and returns [true].  A rejection wrapper is never put
    in this slot, hence [None]. *)
Fixpoint call_onerror (handler : Handler) (args : ErrorArgs)
  : option (list Action * Returned) :=
  match handler with
  | Noop => Some ([], ReturnedUndefined)
  | PageHandler id => Some ([ActPageOnError id args], ReturnedByPage id)
  | ReportingOnError oldErrorHandler =>
      let reported :=
        if falsy (ea_error args) then [] else [ActReport (ea_error args)] in
      match call_onerror oldErrorHandler args with
      | Some (acts, _) => Some ((reported ++ acts)%list, ReturnedTrue)
      | None => None
      end
  | ReportingOnRejection _ => None
  end.

(** [if (promiseRejectionEvent)] *)
Definition arg_truthy (arg : RejectionArg) : bool :=
  match arg with
  | FromBrowser _ => true
  | Passed v => negb (falsy v)
  end.

(** [promiseRejectionEvent.reason]: the reason of an event; a TypeError on
    [undefined] and [null]; [undefined] on a string or an exception-like
    object, which has no such property. *)
Definition arg_reason (arg : RejectionArg) : Thrown + RawError :=
  match arg with
  | FromBrowser reason => inr reason
  | Passed RUndefined | Passed RNull => inl TypeError
  | Passed _ => inr RUndefined
  end.

(** A call [handler(promiseRejectionEvent)]: the actions made, and the
    value returned or thrown.  The wrapper of lines 87-93 reports the reason
    of a truthy argument, calls the handler it replaced with that reason,
    and returns [true]. *)
Fixpoint call_onunhandledrejection (handler : Handler) (arg : RejectionArg)
  : option (list Action * (Thrown + Returned)) :=
  match handler with
  | Noop => Some ([], inr ReturnedUndefined)
  | PageHandler id => Some ([ActPageOnRejection id arg], inr (ReturnedByPage id))
  | ReportingOnRejection oldPromiseRejectionHandler =>
      let reported :=
        if arg_truthy arg then
          match arg_reason arg with
          | inr reason => [ActReport reason]
          | inl _ => []
          end
        else [] in
      match arg_reason arg with
      | inl t => Some (reported, inl t)
      | inr reason =>
          match call_onunhandledrejection oldPromiseRejectionHandler
                  (Passed reason) with
          | Some (acts, inl t) => Some ((reported ++ acts)%list, inl t)
          | Some (acts, inr _) => Some ((reported ++ acts)%list, inr ReturnedTrue)
          | None => None
          end
      end
  | ReportingOnError _ => None
  end.

(** The browser meeting an uncaught error: it calls [window.onerror] when
    there is one. *)
Definition fire_onerror (w : Window) (args : ErrorArgs)
  : option (list Action * Returned) :=
  match onerror w with
  | Some handler => call_onerror handler args
  | None => Some ([], ReturnedUndefined)
  end.

(** The same for [window.onunhandledrejection]. *)
Definition fire_onunhandledrejection (w : Window) (arg : RejectionArg)
  : option (list Action * (Thrown + Returned)) :=
  match onunhandledrejection w with
  | Some handler => call_onunhandledrejection handler arg
  | None => Some ([], inr ReturnedUndefined)
  end.

(** Whether the character [c] occurs in [s]. *)
Fixpoint occurs (c : Ascii.ascii) (s : string) : bool :=
  match s with
  | "" => false
  | String x rest => Ascii.eqb x c || occurs c rest
  end.

(** More concrete data. *)
Module Scene.

Definition page_window : Window :=
  {| onerror := Some (PageHandler 7);
     onunhandledrejection := Some (PageHandler 8) |}.

Definition args : ErrorArgs :=
  {| ea_message := "Uncaught RangeError: boom"; ea_source := "https://x/app.js";
     ea_lineno := 3; ea_colno := 1; ea_error := RError Sample.exn |}.

Definition project_config : Config :=
  {| cfg_key := Some "k"; cfg_projectId := Some "p";
     cfg_targetUrl := None; cfg_customReportingFunction := None;
     cfg_customMessageTranslator := None; cfg_context := None;
     cfg_basePath := Some "base"; cfg_service := None; cfg_version := Some "1.2";
     cfg_reportUncaughtExceptions := None;
     cfg_reportUnhandledPromiseRejections := None;
     cfg_disabled := None |}.

Definition disabled_config : Config :=
  {| cfg_key := Some "k"; cfg_projectId := Some "p";
     cfg_targetUrl := None; cfg_customReportingFunction := None;
     cfg_customMessageTranslator := None; cfg_context := Some Sample.ctx;
     cfg_basePath := None; cfg_service := Some "shop"; cfg_version := None;
     cfg_reportUncaughtExceptions := None;
     cfg_reportUnhandledPromiseRejections := Some false;
     cfg_disabled := Some true |}.

Definition translating_reporter : Reporter :=
  {| customReportingFunction := Some (λ _, Rejected (ErrorObj "down"));
     customMessageTranslator := Some (λ m, "[t] " ++ m);
     apiKey := None; projectId := None; targetUrl := None;
     context := Sample.ctx; basePath := Some "base";
     serviceContext := {| service := "web"; version := None |};
     reportUncaughtExceptions := true;
     reportUnhandledPromiseRejections := true;
     disabled := false |}.

Definition short_frame : StackFrame :=
  {| getFunctionName := Some "f"; getFileName := Some "app.js?v=2";
     getLineNumber := Some 1%N; getColumnNumber := None |}.

End Scene.
(** ** Facts about the string and list helpers *)

Lemma string_app_assoc (a b c : string) : (a ++ b) ++ c = a ++ (b ++ c).
Proof.
  induction a as [|x a IH]; [done|].
  change (String x ((a ++ b) ++ c) = String x (a ++ (b ++ c))).
  by rewrite IH.
Qed.

Lemma split_not_nil sep s : split sep s ≠ [].
Proof.
  destruct s as [|c s]; simpl; [done|].
  destruct (Ascii.eqb c sep); [done|].
  by destruct (split sep s).
Qed.

(** The loop of [resolveError] over the frames pushes one line per frame
    from [s] on. *)
Lemma push_lines_spec stack : ∀ n s lines,
  n = length stack - s →
  push_lines n s stack lines = (lines ++ (frame_line <$> drop s stack))%list.
Proof.
  induction n as [|n IH]; intros s lines Hn; simpl.
  - rewrite drop_ge by lia. by rewrite app_nil_r.
  - destruct (lookup_lt_is_Some_2 stack s) as [f Hf]; [lia|].
    rewrite Hf, IH by lia.
    rewrite (drop_S _ _ _ Hf), fmap_cons.
    by rewrite <- app_assoc.
Qed.

(** The same for the loop over the path segments. *)
Lemma push_segments_spec filePathList : ∀ n e fileName,
  n = length filePathList - e →
  push_segments n e filePathList fileName
  = (fileName ++ (before_query <$> drop e filePathList))%list.
Proof.
  induction n as [|n IH]; intros e fileName Hn; simpl.
  - rewrite drop_ge by lia. by rewrite app_nil_r.
  - destruct (lookup_lt_is_Some_2 filePathList e) as [seg Hseg]; [lia|].
    rewrite Hseg, IH by lia.
    rewrite (drop_S _ _ _ Hseg), fmap_cons.
    by rewrite <- app_assoc.
Qed.

(** ** Facts about the store *)

Lemma deref_obj_set l k v h o :
  h !! l = Some o → deref (obj_set l k v h) l = <[k := v]> o.
Proof.
  intros Hl. unfold deref, obj_set. by rewrite lookup_alter_eq, Hl.
Qed.

Lemma lookup_obj_set_ne l l' k v (h : heap) :
  l ≠ l' → obj_set l k v h !! l' = h !! l'.
Proof. intros Hne. unfold obj_set. by rewrite lookup_alter_ne. Qed.

Lemma get_insert_eq (o : gmap string value) k v : get (<[k := v]> o) k = v.
Proof. unfold get. by rewrite lookup_insert_eq. Qed.

Lemma get_insert_ne (o : gmap string value) k k' v :
  k ≠ k' → get (<[k := v]> o) k' = get o k'.
Proof. intros Hne. unfold get. by rewrite lookup_insert_ne. Qed.

(** ** C1: the two guards of [report] *)

(** C1.  Whatever [err] is, a disabled reporter fulfils [report(err)] with
    [null], calls no collaborator and leaves the store as it was; an enabled
    reporter rejects a falsy [err] with the error "no error to report".  The
    first statement needs nothing of [err], so it covers the falsy ones:
    the disabled check comes first. *)
Theorem report_guards (this : Reporter) (amb : Ambient) (err : RawError)
    (options : option Options) (h : heap) :
  (disabled this = true →
     report this amb err options h = (Fulfilled (Prim Null), [], h))
  ∧ (disabled this = false → falsy err = true →
     report this amb err options h
     = (Rejected (ErrorObj "no error to report"), [], h)).
Proof.
  unfold report. split.
  - by intros ->.
  - by intros -> ->.
Qed.

Lemma report_guards_witness :
  report Sample.disabled_reporter Sample.ok_ambient RUndefined None Sample.store
  = (Fulfilled (Prim Null), [], Sample.store)
  ∧ report Sample.http_reporter Sample.ok_ambient RNull None Sample.store
    = (Rejected (ErrorObj "no error to report"), [], Sample.store).
Proof.
  split.
  - apply (proj1 (report_guards Sample.disabled_reporter Sample.ok_ambient
                    RUndefined None Sample.store)).
    reflexivity.
  - apply (proj2 (report_guards Sample.http_reporter Sample.ok_ambient
                    RNull None Sample.store)); reflexivity.
Defined.

(** ** C2: how the transport classifies the response *)

Lemma onreadystatechange_other payload readyState code p :
  readyState ≠ 4%N → onreadystatechange payload readyState code p = p.
Proof.
  intros Hne. unfold onreadystatechange.
  by destruct (N.eqb_spec readyState 4).
Qed.

Lemma onreadystatechange_settled payload readyState code
    (p : Promise value Thrown) :
  p ≠ Pending → onreadystatechange payload readyState code p = p.
Proof.
  intros Hp. unfold onreadystatechange.
  repeat case_match; by destruct p.
Qed.

Lemma onreadystatechange_done_not_pending payload code :
  onreadystatechange payload 4 code Pending ≠ Pending.
Proof. unfold onreadystatechange. simpl. by repeat case_match. Qed.

(** Events before the request is done leave the promise alone. *)
Lemma fold_events_not_done payload pre : ∀ p,
  Forall (λ ev : N * N, ev.1 ≠ 4%N) pre →
  fold_left (λ p ev, onreadystatechange payload ev.1 ev.2 p) pre p = p.
Proof.
  induction pre as [|ev pre IH]; intros p Hpre; simpl; [done|].
  inversion_clear Hpre as [|? ? Hev Hrest].
  rewrite onreadystatechange_other by done. by apply IH.
Qed.

(** Events after the promise has settled do not change it. *)
Lemma fold_events_settled payload post : ∀ p : Promise value Thrown,
  p ≠ Pending →
  fold_left (λ p ev, onreadystatechange payload ev.1 ev.2 p) post p = p.
Proof.
  induction post as [|ev post IH]; intros p Hp; simpl; [done|].
  rewrite onreadystatechange_settled by done. by apply IH.
Qed.

(** The promise is the one the first event with [readyState] 4 makes. *)
Lemma sendErrorPayload_first_done pre post code url payload h :
  Forall (λ ev : N * N, ev.1 ≠ 4%N) pre →
  (sendErrorPayload (pre ++ (4%N, code) :: post) url payload h).1
  = onreadystatechange payload 4 code Pending.
Proof.
  intros Hpre. unfold sendErrorPayload. simpl.
  rewrite fold_left_app. simpl.
  rewrite (fold_events_not_done payload pre Pending Hpre).
  apply fold_events_settled, onreadystatechange_done_not_pending.
Qed.

(** C2.  Let [code] be the status when the request is done (the first
    readystatechange event with [readyState] 4).  If [200 <= code < 300] the
    promise is fulfilled with [{message: payload.message}].  If [code] is 429
    it is rejected with an object that is not an Error, named
    "Http429FakeError", with the fixed message.  Otherwise it is rejected
    with [new Error(...)], whose message is "network error on stackdriver
    report" when there is no status ([code] is 0) and the status followed by
    " http response on stackdriver report" when there is one. *)
Theorem sendErrorPayload_classifies (pre post : list (N * N)) (code : N)
    (url : string) (payload : Payload) (h : heap) :
  Forall (λ ev : N * N, ev.1 ≠ 4%N) pre →
  let promise :=
    (sendErrorPayload (pre ++ (4%N, code) :: post) url payload h).1 in
  ((200 ≤ code < 300)%N →
     promise
     = Fulfilled (Obj {["message" := Prim (of_string (p_message payload))]}))
  ∧ (code = 429%N →
     ∃ v fields,
       promise = Rejected (Val v) ∧ v = Obj fields
       ∧ instanceof_Error (Val v) = false
       ∧ get fields "name" = Prim (Str "Http429FakeError")
       ∧ get fields "message"
         = Prim (Str "quota or rate limiting error on stackdriver report"))
  ∧ (code = 0%N →
     promise = Rejected (ErrorObj "network error on stackdriver report")
     ∧ instanceof_Error (ErrorObj "network error on stackdriver report") = true)
  ∧ (code ≠ 0%N → ¬ (200 ≤ code < 300)%N → code ≠ 429%N →
     promise
     = Rejected (ErrorObj (pretty code ++ " http response on stackdriver report"))
     ∧ instanceof_Error
         (ErrorObj (pretty code ++ " http response on stackdriver report"))
       = true).
Proof.
  intros Hpre promise. subst promise.
  rewrite sendErrorPayload_first_done by done.
  unfold onreadystatechange. simpl.
  split; [|split; [|split]].
  - intros [Hlo Hhi].
    apply N.leb_le in Hlo. apply N.ltb_lt in Hhi. by rewrite Hlo, Hhi.
  - intros ->. eexists _, _. simpl. unfold Http429FakeError.
    repeat split; reflexivity.
  - by intros ->.
  - intros H0 Hrange H429. split; [|done].
    destruct (N.leb_spec 200 code), (N.ltb_spec code 300); simpl; try lia.
    all: destruct (N.eqb_spec code 429); [done|].
    all: destruct (N.eqb_spec code 0); [done|].
    all: by rewrite string_app_assoc.
Qed.

Lemma sendErrorPayload_classifies_witness :
  (sendErrorPayload
     ([(1%N, 0%N); (2%N, 204%N)] ++ (4%N, 204%N) :: [(4%N, 500%N)])%list
     "https://t/" Sample.shell Sample.store).1
  = Fulfilled (Obj {["message" := Prim (Str "m")]}).
Proof.
  apply (sendErrorPayload_classifies [(1, 0); (2, 204)]%N [(4, 500)]%N 204
           "https://t/" Sample.shell Sample.store).
  - repeat constructor; simpl; discriminate.
  - lia.
Defined.

(** ** What [report] does once both guards are passed *)

Lemma falsy_promoted err : falsy err = false → is_Some (promoted err).
Proof. destruct err; simpl; eauto; discriminate. Qed.

(** The fulfilment handler on the custom path: one call of the custom
    function, the store untouched. *)
Lemma report_then_custom this amb payload message location h customFunc :
  customReportingFunction this = Some customFunc →
  let sent :=
    {| pv_serviceContext := p_serviceContext payload;
       pv_context := deref h (p_context payload);
       pv_message := Some (translated this message) |} in
  report_then this amb payload (message, location) h
  = (customFunc sent, [EvCustom sent], h).
Proof. intros Hc. unfold report_then, translated. by rewrite Hc. Qed.

(** The fulfilment handler on the HTTP path: the location is written to the
    context, then one request is sent. *)
Lemma report_then_http this amb payload message location h :
  customReportingFunction this = None →
  let h' := obj_set (p_context payload) "reportLocation" location h in
  let sent :=
    {| pv_serviceContext := p_serviceContext payload;
       pv_context := deref h' (p_context payload);
       pv_message := Some (translated this message) |} in
  ∃ p,
    report_then this amb payload (message, location) h
    = (p, [EvXhrPost (reportUrl this) "application/json; charset=UTF-8" sent],
       h').
Proof.
  intros Hc. unfold report_then, translated. rewrite Hc. simpl. eauto.
Qed.

(** Past the guards [report] is the prepared payload, the resolution, and
    the fulfilment handler. *)
Lemma report_resolved this amb err options h e resolved :
  disabled this = false →
  falsy err = false →
  promoted err = Some e →
  resolveError (fromError amb e) e
    (firstFrameIndex err (default {| skipLocalFrames := None |} options))
    (basePath this)
  = Fulfilled resolved →
  report this amb err options h
  = let '(p, evs, h2) :=
      report_then this amb (report_prepare this amb h).1 resolved
        (report_prepare this amb h).2 in
    (p, EvFromError e :: evs, h2).
Proof.
  intros Hen Hfalsy He Hres. unfold report.
  rewrite Hen, Hfalsy. cbn [report_prepare fst snd].
  by rewrite He, Hres.
Qed.

(** Past the guards, a resolution that yields a message and a location is
    followed by exactly one delivery, which carries that message. *)
Lemma report_delivers this amb err options h e message location :
  disabled this = false →
  falsy err = false →
  promoted err = Some e →
  resolveError (fromError amb e) e
    (firstFrameIndex err (default {| skipLocalFrames := None |} options))
    (basePath this)
  = Fulfilled (message, location) →
  ∃ d view,
    deliveries (report this amb err options h).1.2 = [d]
    ∧ delivered d = Some view
    ∧ pv_message view = Some (translated this message).
Proof.
  intros Hen Hfalsy He Hres.
  rewrite (report_resolved _ _ _ _ _ _ _ Hen Hfalsy He Hres).
  destruct (customReportingFunction this) as [customFunc|] eqn:Hc.
  - rewrite (report_then_custom _ _ _ _ _ _ _ Hc).
    eexists _, _. split; [reflexivity|]. split; reflexivity.
  - destruct (report_then_http this amb (report_prepare this amb h).1
                message location (report_prepare this amb h).2 Hc)
      as [p Hp].
    rewrite Hp.
    eexists _, _. split; [reflexivity|]. split; reflexivity.
Qed.

(** ** C3: a failed resolution degrades to a best-effort message *)

(** C3.  When [StackTrace.fromError] rejects with [reason], [resolveError]
    is fulfilled, not rejected: with the message "Error extracting stack
    trace: <reason>", a line feed, the error's string form, a line feed, and
    "    (<file>:<line>:<column>)" read from the error itself, and with the
    empty object as location.  The report goes on to exactly one delivery,
    whose payload carries that message (through the message translator when
    one is configured). *)
Theorem resolution_failure_degrades (this : Reporter) (amb : Ambient)
    (err : RawError) (options : option Options) (h : heap)
    (e : ExceptionLike) (reason : Reason) :
  disabled this = false →
  falsy err = false →
  promoted err = Some e →
  fromError amb e = Rejected reason →
  let degraded :=
    "Error extracting stack trace: " ++ reason_join_elem reason ++ newline
    ++ toString e ++ newline
    ++ "    (" ++ join_elem (file e) ++ ":" ++ join_elem (line e) ++ ":"
    ++ join_elem (column e) ++ ")" in
  (∀ firstFrameIndex fileBasePath,
     resolveError (fromError amb e) e firstFrameIndex fileBasePath
     = Fulfilled (degraded, Obj ∅))
  ∧ ∃ d view,
      deliveries (report this amb err options h).1.2 = [d]
      ∧ delivered d = Some view
      ∧ pv_message view = Some (translated this degraded).
Proof.
  intros Hen Hfalsy He Hrej degraded.
  assert (Hres : ∀ i b,
    resolveError (fromError amb e) e i b = Fulfilled (degraded, Obj ∅)).
  { intros i b. rewrite Hrej. reflexivity. }
  split; [exact Hres|].
  eapply report_delivers; eauto.
Qed.

Lemma resolution_failure_degrades_witness :
  ∃ d view,
    deliveries (report Sample.http_reporter Sample.failing_ambient
                  (RError Sample.exn) None Sample.store).1.2 = [d]
    ∧ delivered d = Some view
    ∧ pv_message view
      = Some ("Error extracting stack trace: Error: Cannot parse given Error object"
              ++ newline ++ "RangeError: boom" ++ newline ++ "    (app.js:3:)").
Proof.
  apply (resolution_failure_degrades Sample.http_reporter
           Sample.failing_ambient (RError Sample.exn) None Sample.store
           Sample.exn (ReasonObj "Error: Cannot parse given Error object"));
    reflexivity.
Defined.

(** ** The success path of [resolveError] *)

(** [split("?")[0]] is the segment without its query string. *)
Lemma before_query_strip segment : before_query segment = strip_query segment.
Proof.
  unfold before_query.
  induction segment as [|c rest IH]; simpl; [done|].
  destruct (Ascii.eqb c "?"); [done|].
  pose proof (split_not_nil "?" rest) as Hne.
  destruct (split "?" rest) as [|x xs]; [done|].
  simpl in *. by rewrite IH.
Qed.

(** Joining the segments of [split] gives the string back. *)
Lemma join_split sep s : join (String sep "") (split sep s) = s.
Proof.
  induction s as [|c s IH]; simpl; [done|].
  destruct (Ascii.eqb_spec c sep) as [->|Hne].
  - pose proof (split_not_nil sep s) as Hnil.
    destruct (split sep s) as [|x xs] eqn:Hs; [done|].
    change (String sep (join (String sep "") (x :: xs)) = String sep s).
    by rewrite IH.
  - pose proof (split_not_nil sep s) as Hnil.
    destruct (split sep s) as [|x xs] eqn:Hs; [done|].
    destruct xs as [|y ys]; simpl in *; by rewrite <- IH.
Qed.

(** When there is a frame at [firstFrameIndex] and it has a file name,
    [resolveError] is fulfilled with the lines joined by the escaped newline
    and the location built from that frame. *)
Lemma resolveError_fulfilled stack err firstFrameIndex fileBasePath frame path :
  stack !! firstFrameIndex = Some frame →
  getFileName frame = Some path →
  resolveError (Fulfilled stack) err firstFrameIndex fileBasePath
  = Fulfilled
      (join escaped_newline
         (toString err :: (frame_line <$> drop firstFrameIndex stack)),
       location_object
         (to_string fileBasePath ++ "/"
          ++ join "/" (strip_query <$> drop 3 (split "/" path)))
         (getLineNumber frame)
         (or_else (getFunctionName frame) "<anonymous>")).
Proof.
  intros Hframe Hpath. unfold resolveError.
  rewrite Hframe, Hpath.
  rewrite push_lines_spec by done.
  rewrite push_segments_spec by done.
  replace (before_query <$> drop 3 (split "/" path))
    with (strip_query <$> drop 3 (split "/" path)); [done|].
  apply list_fmap_ext. intros ? seg _. symmetry. apply before_query_strip.
Qed.

(** Without a frame at [firstFrameIndex] the fulfilment handler throws. *)
Lemma resolveError_no_frame stack err firstFrameIndex fileBasePath :
  (length stack ≤ firstFrameIndex)%nat →
  resolveError (Fulfilled stack) err firstFrameIndex fileBasePath
  = Rejected TypeError.
Proof.
  intros Hlen. unfold resolveError.
  by rewrite (lookup_ge_None_2 stack firstFrameIndex Hlen).
Qed.

(** The separator of the lines is the two characters backslash and [n],
    not the line feed. *)
Lemma escaped_newline_chars :
  escaped_newline = "\n" ∧ String.length escaped_newline = 2
  ∧ escaped_newline ≠ newline.
Proof. repeat split; discriminate. Qed.

(** One line of the message. *)
Lemma frame_line_format f :
  frame_line f
  = "    at "
    ++ match getFunctionName f with
       | Some (String c s) => String c s
       | _ => "<anonymous>"
       end
    ++ " (" ++ join_elem (of_string (getFileName f))
    ++ ":" ++ join_elem (of_number (getLineNumber f))
    ++ ":" ++ join_elem (of_number (getColumnNumber f)) ++ ")".
Proof. reflexivity. Qed.

(** ** C4: the index of the first frame kept *)

(** C4, as the code has it.  For a string (primitive or String object) the
    first frame kept is [options.skipLocalFrames || 1]: the supplied count
    when it is not zero, 1 otherwise.  For an exception-like object it is 0,
    whatever [options.skipLocalFrames] is.  The message delivered is the
    error's string form followed by the lines of the frames from that index
    on. *)
Theorem report_first_frame_kept (this : Reporter) (amb : Ambient)
    (err : RawError) (options : option Options) (h : heap)
    (e : ExceptionLike) (stack : list StackFrame) (frame : StackFrame)
    (path : string) :
  let kept :=
    match err with
    | RString _ | RStringObject _ =>
        match options ≫= skipLocalFrames with
        | Some (S n) => S n
        | _ => 1
        end
    | _ => 0
    end in
  disabled this = false →
  falsy err = false →
  promoted err = Some e →
  fromError amb e = Fulfilled stack →
  stack !! kept = Some frame →
  getFileName frame = Some path →
  firstFrameIndex err (default {| skipLocalFrames := None |} options) = kept
  ∧ ∃ d view,
      deliveries (report this amb err options h).1.2 = [d]
      ∧ delivered d = Some view
      ∧ pv_message view
        = Some (translated this
                  (join escaped_newline
                     (toString e :: (frame_line <$> drop kept stack)))).
Proof.
  intros kept Hen Hfalsy He Hstack Hframe Hpath.
  assert (Hidx :
    firstFrameIndex err (default {| skipLocalFrames := None |} options) = kept).
  { subst kept. unfold firstFrameIndex, skip_or_1.
    destruct err, options as [[[[|n]|]]|]; reflexivity. }
  split; [exact Hidx|].
  eapply report_delivers; eauto.
  rewrite Hidx, Hstack.
  apply (resolveError_fulfilled _ _ _ _ _ _ Hframe Hpath).
Qed.

Lemma report_first_frame_kept_witness :
  firstFrameIndex (RString "boom") {| skipLocalFrames := None |} = 1
  ∧ ∃ d view,
      deliveries (report Sample.http_reporter Sample.ok_ambient
                    (RString "boom") None Sample.store).1.2 = [d]
      ∧ delivered d = Some view
      ∧ pv_message view
        = Some "Error: boom\n    at <anonymous> (https://x/lib/b.js:20:3)".
Proof.
  apply (report_first_frame_kept Sample.http_reporter Sample.ok_ambient
           (RString "boom") None Sample.store (new_Error "boom")
           [Sample.frame_a; Sample.frame_b] Sample.frame_b
           "https://x/lib/b.js"); reflexivity.
Defined.

(** C4, as it is worded, does not hold: for an exception-like object the
    index is 0 where the wording gives 1 (no option) or the supplied count,
    so that frame 0 is in the message delivered; and for a string a supplied
    count of 0 does not replace the 1. *)
Lemma firstFrameIndex_not_as_specified :
  firstFrameIndex (RError Sample.exn) {| skipLocalFrames := None |}
  ≠ firstFrameIndex_as_specified (RError Sample.exn) {| skipLocalFrames := None |}
  ∧ firstFrameIndex (RError Sample.exn) {| skipLocalFrames := Some 3 |}
    ≠ firstFrameIndex_as_specified (RError Sample.exn)
        {| skipLocalFrames := Some 3 |}
  ∧ firstFrameIndex (RString "boom") {| skipLocalFrames := Some 0 |}
    ≠ firstFrameIndex_as_specified (RString "boom")
        {| skipLocalFrames := Some 0 |}
  ∧ ∃ d view,
      deliveries (report Sample.http_reporter Sample.ok_ambient
                    (RError Sample.exn) None Sample.store).1.2 = [d]
      ∧ delivered d = Some view
      ∧ pv_message view
        = Some ("RangeError: boom"
                ++ "\n    at a (https://x/y/z/app.js?v=1:10:2)"
                ++ "\n    at <anonymous> (https://x/lib/b.js:20:3)").
Proof.
  split; [discriminate|]. split; [discriminate|]. split; [discriminate|].
  eexists _, _. split; [reflexivity|]. split; reflexivity.
Qed.

(** ** C5: the message of a successful resolution *)

(** C5, where the code departs from it.  [report("boom", {skipLocalFrames:
    2})] with a stack that resolves to two frames: the message would be the
    single line "Error: boom", but reading [stack[2]] for the location
    throws, [resolveError] is rejected with a TypeError and nothing is
    delivered. *)
Theorem resolveError_short_stack_rejects :
  resolveError (Fulfilled [Sample.frame_a; Sample.frame_b])
    (new_Error "boom") 2 (Some "base")
  = Rejected TypeError
  ∧ push_lines 0 2 [Sample.frame_a; Sample.frame_b] [toString (new_Error "boom")]
    = ["Error: boom"]
  ∧ (report Sample.http_reporter Sample.ok_ambient (RString "boom")
       (Some {| skipLocalFrames := Some 2 |}) Sample.store).1
    = (Rejected TypeError, [EvFromError (new_Error "boom")]).
Proof. repeat split; reflexivity. Qed.

(** ** C6: the report location *)

(** C6.  When the stack has a frame at [firstFrameIndex] and that frame has
    a file name, the location returned has as [filePath] the base path, a
    slash, and the segments of the file name after the third, each without
    its query string, joined by slashes; as [lineNumber] the frame's line
    number; as [functionName] the frame's function name, "<anonymous>" when
    there is none. *)
Theorem resolveError_location (stack : list StackFrame) (err : ExceptionLike)
    (firstFrameIndex : nat) (fileBasePath : option string)
    (frame : StackFrame) (path : string) :
  stack !! firstFrameIndex = Some frame →
  getFileName frame = Some path →
  ∃ message fields,
    resolveError (Fulfilled stack) err firstFrameIndex fileBasePath
    = Fulfilled (message, Obj fields)
    ∧ get fields "filePath"
      = Prim (Str (to_string fileBasePath ++ "/"
                   ++ join "/" (strip_query <$> drop 3 (split "/" path))))
    ∧ get fields "lineNumber" = Prim (of_number (getLineNumber frame))
    ∧ get fields "functionName"
      = Prim (Str match getFunctionName frame with
                  | Some (String c s) => String c s
                  | _ => "<anonymous>"
                  end).
Proof.
  intros Hframe Hpath.
  rewrite (resolveError_fulfilled _ _ _ _ _ _ Hframe Hpath).
  eexists _, _. split; [reflexivity|].
  repeat split.
Qed.

Lemma resolveError_location_witness :
  ∃ message fields,
    resolveError (Fulfilled [Sample.frame_a; Sample.frame_b]) Sample.exn 0
      (Some "base")
    = Fulfilled (message, Obj fields)
    ∧ get fields "filePath" = Prim (Str "base/y/z/app.js")
    ∧ get fields "lineNumber" = Prim (Num 10)
    ∧ get fields "functionName" = Prim (Str "a").
Proof.
  apply (resolveError_location [Sample.frame_a; Sample.frame_b] Sample.exn 0
           (Some "base") Sample.frame_a "https://x/y/z/app.js?v=1");
    reflexivity.
Defined.

(** The deliveries of the three traces [report] can leave. *)
Lemma deliveries_custom e sent :
  deliveries [EvFromError e; EvCustom sent] = [EvCustom sent].
Proof. reflexivity. Qed.

Lemma deliveries_post e url contentType sent :
  deliveries [EvFromError e; EvXhrPost url contentType sent]
  = [EvXhrPost url contentType sent].
Proof. reflexivity. Qed.

Lemma deliveries_none e : deliveries [EvFromError e] = [].
Proof. reflexivity. Qed.

(** ** The three ways an enabled report of a non-empty error ends *)

(** Past the guards the shared context has received [httpRequest]; then
    either the custom function is called with the payload, or the location is
    written to the shared context and the payload is posted, or the
    resolution did not yield a message and nothing is delivered. *)
Lemma report_enabled_cases this amb err options h ctx0 :
  disabled this = false →
  falsy err = false →
  h !! context this = Some ctx0 →
  let h1 := (report_prepare this amb h).2 in
  let ctx1 := <["httpRequest" := httpRequest amb]> ctx0 in
  h1 !! context this = Some ctx1
  ∧ ∃ e,
      promoted err = Some e
      ∧ ((∃ customFunc message location,
            customReportingFunction this = Some customFunc
            ∧ resolveError (fromError amb e) e
                (firstFrameIndex err
                   (default {| skipLocalFrames := None |} options))
                (basePath this)
              = Fulfilled (message, location)
            ∧ let sent :=
                {| pv_serviceContext := serviceContext this;
                   pv_context := ctx1;
                   pv_message := Some (translated this message) |} in
              report this amb err options h
              = (customFunc sent, [EvFromError e; EvCustom sent], h1))
         ∨ (∃ message location p,
              customReportingFunction this = None
              ∧ resolveError (fromError amb e) e
                  (firstFrameIndex err
                     (default {| skipLocalFrames := None |} options))
                  (basePath this)
                = Fulfilled (message, location)
              ∧ let sent :=
                  {| pv_serviceContext := serviceContext this;
                     pv_context := <["reportLocation" := location]> ctx1;
                     pv_message := Some (translated this message) |} in
                report this amb err options h
                = (p, [EvFromError e;
                       EvXhrPost (reportUrl this)
                         "application/json; charset=UTF-8" sent],
                   obj_set (context this) "reportLocation" location h1))
         ∨ (∃ p,
              (∀ resolved,
                 resolveError (fromError amb e) e
                   (firstFrameIndex err
                      (default {| skipLocalFrames := None |} options))
                   (basePath this)
                 ≠ Fulfilled resolved)
              ∧ report this amb err options h = (p, [EvFromError e], h1))).
Proof.
  intros Hen Hfalsy Hctx h1 ctx1.
  assert (Hh1 : h1 !! context this = Some ctx1).
  { subst h1 ctx1. unfold report_prepare, obj_set. simpl.
    by rewrite lookup_alter_eq, Hctx. }
  split; [exact Hh1|].
  destruct (falsy_promoted err Hfalsy) as [e He]. exists e.
  split; [exact He|].
  destruct (resolveError (fromError amb e) e
              (firstFrameIndex err
                 (default {| skipLocalFrames := None |} options))
              (basePath this)) as [[message location]|t|] eqn:Hres.
  - rewrite (report_resolved _ _ _ _ _ _ _ Hen Hfalsy He Hres).
    destruct (customReportingFunction this) as [customFunc|] eqn:Hc.
    + left. exists customFunc, message, location.
      split; [done|]. split; [done|].
      rewrite (report_then_custom _ _ _ _ _ _ _ Hc).
      fold h1. unfold deref. simpl. by rewrite Hh1.
    + right; left.
      destruct (report_then_http this amb (report_prepare this amb h).1
                  message location (report_prepare this amb h).2 Hc)
        as [p Hp].
      exists message, location, p.
      split; [done|]. split; [done|].
      rewrite Hp. fold h1. simpl.
      by rewrite (deref_obj_set _ _ _ _ _ Hh1).
  - right; right. exists (Rejected t). split; [done|].
    unfold report. rewrite Hen, Hfalsy. cbn [report_prepare fst snd].
    by rewrite He, Hres.
  - right; right. exists Pending. split; [done|].
    unfold report. rewrite Hen, Hfalsy. cbn [report_prepare fst snd].
    by rewrite He, Hres.
Qed.

(** ** C7: the delivery path *)

(** C7, as the code has it.  On an enabled reporter, a report of a non-empty
    error whose resolution yields a message makes exactly one delivery.  With
    a custom reporting function it is a call of that function, whatever else
    is configured, and the payload's context has the [reportLocation] it had
    before the report: none is put in.  Without one it is a POST, to the
    target URL when there is one and to the URL made of the project id and
    the API key otherwise, and the payload's context has the resolved
    location as [reportLocation]. *)
Theorem report_delivery_path (this : Reporter) (amb : Ambient)
    (err : RawError) (options : option Options) (h : heap)
    (e : ExceptionLike) (message : string) (location : value)
    (ctx0 : gmap string value) :
  disabled this = false →
  falsy err = false →
  promoted err = Some e →
  h !! context this = Some ctx0 →
  resolveError (fromError amb e) e
    (firstFrameIndex err (default {| skipLocalFrames := None |} options))
    (basePath this)
  = Fulfilled (message, location) →
  ∃ d view,
    deliveries (report this amb err options h).1.2 = [d]
    ∧ delivered d = Some view
    ∧ match customReportingFunction this with
      | Some customFunc =>
          d = EvCustom view
          ∧ (report this amb err options h).1.1 = customFunc view
          ∧ pv_context view !! "reportLocation" = ctx0 !! "reportLocation"
      | None =>
          d = EvXhrPost
                match targetUrl this with
                | Some (String c s) => String c s
                | _ => baseAPIUrl ++ to_string (projectId this)
                       ++ "/events:report?key=" ++ to_string (apiKey this)
                end
                "application/json; charset=UTF-8" view
          ∧ pv_context view !! "reportLocation" = Some location
      end.
Proof.
  intros Hen Hfalsy He Hctx Hres.
  destruct (report_enabled_cases this amb err options h ctx0 Hen Hfalsy Hctx)
    as (_ & e' & He' & Hcases).
  assert (e' = e) as -> by congruence.
  destruct Hcases as [(customFunc & m & l & Hc & Hres' & Hrep)
                     |[(m & l & p & Hc & Hres' & Hrep)
                      |(p & Hnone & _)]].
  - rewrite Hrep, Hc. eexists _, _.
    split; [reflexivity|]. split; [reflexivity|].
    split; [reflexivity|]. split; [reflexivity|].
    simpl. by rewrite lookup_insert_ne.
  - assert (l = location) as -> by congruence.
    rewrite Hrep, Hc. eexists _, _.
    split; [reflexivity|]. split; [reflexivity|].
    split; [reflexivity|].
    simpl. by rewrite lookup_insert_eq.
  - by destruct (Hnone _ Hres).
Qed.

Lemma report_delivery_path_witness :
  ∃ d view,
    deliveries (report Sample.custom_reporter Sample.ok_ambient
                  (RError Sample.exn) None Sample.store).1.2 = [d]
    ∧ delivered d = Some view
    ∧ d = EvCustom view
      ∧ (report Sample.custom_reporter Sample.ok_ambient (RError Sample.exn)
           None Sample.store).1.1 = Fulfilled (Prim (Str "ok"))
      ∧ pv_context view !! "reportLocation" = None.
Proof.
  pose proof (report_delivery_path Sample.custom_reporter Sample.ok_ambient
                (RError Sample.exn) None Sample.store Sample.exn
                _ _ {[ "user" := Prim (Str "u0") ]}
                eq_refl eq_refl eq_refl eq_refl eq_refl) as (d & v & H).
  exists d, v. exact H.
Defined.

(** C7, as it is worded, does not hold of every report on an enabled
    reporter: an empty input is rejected before any delivery. *)
Lemma report_empty_input_delivers_nothing :
  disabled Sample.custom_reporter = false
  ∧ deliveries (report Sample.custom_reporter Sample.ok_ambient RUndefined
                  None Sample.store).1.2 = [].
Proof. split; reflexivity. Qed.

(** ** C8: the validation of the configuration *)

Lemma truthy_true_iff o : truthy o = true ↔ ∃ c s, o = Some (String c s).
Proof.
  split.
  - destruct o as [[|c s]|]; simpl; try discriminate. eauto.
  - by intros (c & s & ->).
Qed.

(** [start] returns a reporter when the configuration is usable and throws
    an Error when it is not. *)
Lemma start_result config w (h : heap) :
  (usable config ∧ ∃ this w' h', start config w h = inr (this, w', h'))
  ∨ (¬ usable config ∧ ∃ message, start config w h = inl (ErrorObj message)).
Proof.
  unfold start, usable.
  destruct (truthy (cfg_key config)) eqn:Hkey,
           (truthy (cfg_projectId config)) eqn:Hproject,
           (truthy (cfg_targetUrl config)) eqn:Hurl,
           (cfg_customReportingFunction config) as [customFunc|] eqn:Hcustom;
    simpl.
  all: first
    [ right; split;
      [ intros [[? ?]|[?|[? ?]]]; discriminate
      | eexists; reflexivity ]
    | left; split;
      [ first [ left; split; reflexivity
              | right; left; reflexivity
              | right; right; eexists; reflexivity ]
      | destruct (cfg_context config); eexists _, _, _; reflexivity ] ].
Qed.

(** C8.  [start(config)] throws an Error exactly when the configuration has
    no usable delivery mechanism, and returns a reporter exactly when it has
    one. *)
Theorem start_throws_iff_unusable (config : Config) (w : Window) (h : heap) :
  ((∃ message, start config w h = inl (ErrorObj message)) ↔ ¬ usable config)
  ∧ ((∃ this w' h', start config w h = inr (this, w', h')) ↔ usable config).
Proof.
  destruct (start_result config w h)
    as [(Hu & this & w' & h' & Hs)|(Hu & message & Hs)].
  - split; split.
    + intros (message & Hthrow). congruence.
    + intros Hn. by destruct Hn.
    + by intros _.
    + intros _. eauto.
  - split; split.
    + by intros _.
    + intros _. eauto.
    + intros (this & w' & h' & Hret). congruence.
    + intros Hyes. by destruct Hu.
Qed.

Lemma start_throws_iff_unusable_witness :
  ∃ this w' h',
    start {| cfg_key := Some "k"; cfg_projectId := Some "p";
             cfg_targetUrl := None; cfg_customReportingFunction := None;
             cfg_customMessageTranslator := None; cfg_context := None;
             cfg_basePath := None; cfg_service := None; cfg_version := None;
             cfg_reportUncaughtExceptions := None;
             cfg_reportUnhandledPromiseRejections := None;
             cfg_disabled := None |}
      {| onerror := None; onunhandledrejection := None |} ∅
    = inr (this, w', h').
Proof.
  apply start_throws_iff_unusable. left. split; reflexivity.
Defined.

(** [start] leaves the reporter with a context that is in the store. *)
Lemma start_context_allocated config w (h : heap) this w' h' :
  (∀ l, cfg_context config = Some l → is_Some (h !! l)) →
  start config w h = inr (this, w', h') →
  is_Some (h' !! context this).
Proof.
  intros Hcfg. unfold start.
  repeat case_match; intros; simplify_eq; simpl.
  all: first [ by apply Hcfg | rewrite lookup_insert_eq; eauto ].
Qed.

(** ** C9: the user of the context *)

(** [report] is its call followed at once by its handler. *)
Lemma report_is_call_then_settle this c (h : heap) :
  let '(f, t, h1) := report_call this c h in
  let '(t', h2) :=
    match f with
    | Some f => report_settle this f h1
    | None => ([], h1)
    end in
  (report this (c_ambient c) (c_err c) (c_options c) h).1.2 = (t ++ t')%list
  ∧ (report this (c_ambient c) (c_err c) (c_options c) h).2 = h2.
Proof.
  unfold report_call, report, report_settle.
  destruct (disabled this); [done|].
  destruct (falsy (c_err c)); [done|].
  cbn [report_prepare fst snd].
  destruct (promoted (c_err c)) as [e|]; [|done].
  cbn [f_resolved f_ambient f_payload].
  destruct (resolveError _ _ _ _) as [resolved| |]; [|done|done].
  by destruct (report_then _ _ _ _ _) as [[p evs] h2].
Qed.

(** The call of a report delivers nothing yet, leaves [context.user] as it
    is, and the report under way holds the reporter's context. *)
Lemma report_call_keeps this c (h : heap) ctx :
  h !! context this = Some ctx →
  (∃ ctx', (report_call this c h).2 !! context this = Some ctx'
           ∧ get ctx' "user" = get ctx "user")
  ∧ deliveries (report_call this c h).1.2 = []
  ∧ ∀ f, (report_call this c h).1.1 = Some f → of_reporter this f.
Proof.
  intros Hctx. unfold report_call.
  destruct (disabled this).
  { cbn [fst snd]. split; [eauto|]. split; [done|]. intros f Hf. discriminate. }
  destruct (falsy (c_err c)).
  { cbn [fst snd]. split; [eauto|]. split; [done|]. intros f Hf. discriminate. }
  cbn [report_prepare p_context].
  assert (Hh1 : obj_set (context this) "httpRequest"
                  (httpRequest (c_ambient c)) h !! context this
                = Some (<["httpRequest" := httpRequest (c_ambient c)]> ctx)).
  { unfold obj_set. by rewrite lookup_alter_eq, Hctx. }
  destruct (promoted (c_err c)) as [e|]; cbn [fst snd].
  - split; [|split].
    + eexists. split; [exact Hh1|]. by rewrite get_insert_ne.
    + reflexivity.
    + intros f Hf. by simplify_eq.
  - split; [|split].
    + eexists. split; [exact Hh1|]. by rewrite get_insert_ne.
    + reflexivity.
    + intros f Hf. discriminate.
Qed.

(** The handler of a report under way leaves [context.user] as it is, and
    what it delivers carries the [user] the context has when it runs. *)
Lemma report_settle_keeps this f (h : heap) ctx :
  of_reporter this f →
  h !! context this = Some ctx →
  (∃ ctx', (report_settle this f h).2 !! context this = Some ctx'
           ∧ get ctx' "user" = get ctx "user")
  ∧ ∀ d view,
      d ∈ deliveries (report_settle this f h).1 →
      delivered d = Some view →
      get (pv_context view) "user" = get ctx "user".
Proof.
  intros Hof Hctx. unfold report_settle, of_reporter in *.
  destruct (f_resolved f) as [[message location]| |]; cbn [fst snd].
  - destruct (customReportingFunction this) as [customFunc|] eqn:Hc.
    + rewrite (report_then_custom _ _ _ _ _ _ _ Hc). cbn [fst snd].
      split; [eauto|].
      intros d view Hd Hv. apply list_elem_of_singleton in Hd as ->.
      cbn [delivered] in Hv. simplify_eq. cbn [pv_context].
      unfold deref. by rewrite Hof, Hctx.
    + destruct (report_then_http this (f_ambient f) (f_payload f) message
                  location h Hc) as [p Hp].
      rewrite Hp. cbn [fst snd]. rewrite Hof.
      rewrite Hof in Hp.
      split.
      * eexists. split.
        -- unfold obj_set. by rewrite lookup_alter_eq, Hctx.
        -- by rewrite get_insert_ne.
      * intros d view Hd Hv. apply list_elem_of_singleton in Hd as ->.
        cbn [delivered] in Hv. simplify_eq. cbn [pv_context].
        rewrite (deref_obj_set _ _ _ _ _ Hctx). by rewrite get_insert_ne.
  - split; [eauto|]. intros d view Hd. by apply elem_of_nil in Hd.
  - split; [eauto|]. intros d view Hd. by apply elem_of_nil in Hd.
Qed.

(** The handler of a report whose resolution yielded a message makes
    exactly one delivery. *)
Lemma report_settle_delivers this f (h : heap) resolved :
  f_resolved f = Fulfilled resolved →
  length (deliveries (report_settle this f h).1) = 1.
Proof.
  intros Hres. unfold report_settle. rewrite Hres.
  destruct resolved as [message location].
  destruct (customReportingFunction this) as [customFunc|] eqn:Hc.
  - by rewrite (report_then_custom _ _ _ _ _ _ _ Hc).
  - destruct (report_then_http this (f_ambient f) (f_payload f) message
                location h Hc) as [p Hp].
    by rewrite Hp.
Qed.

(** The call of a deliverable report on an enabled reporter puts a report
    under way whose resolution has yielded a message. *)
Lemma report_call_deliverable this c (h : heap) :
  disabled this = false →
  deliverable this c →
  ∃ f t h1 resolved,
    report_call this c h = (Some f, t, h1)
    ∧ deliveries t = []
    ∧ f_resolved f = Fulfilled resolved.
Proof.
  intros Hen (Hfalsy & e & resolved & He & Hres).
  unfold report_call. rewrite Hen, Hfalsy. cbn [report_prepare].
  rewrite He. eexists _, _, _, resolved.
  split; [reflexivity|]. split; [reflexivity|]. exact Hres.
Qed.

(** Between two calls of [setUser], whatever is called, whatever settles
    and in whatever order, every payload delivered carries the [user] the
    context has, and the context keeps it. *)
Lemma run_carries_user this user steps : ∀ (h : heap) pending ctx,
  Forall (λ s, is_setUser s = false) steps →
  Forall (of_reporter this) pending →
  h !! context this = Some ctx →
  get ctx "user" = Prim user →
  (∀ d view,
     d ∈ deliveries (run this steps h pending).1.1 →
     delivered d = Some view →
     get (pv_context view) "user" = Prim user)
  ∧ ∃ ctx', (run this steps h pending).1.2 !! context this = Some ctx'
            ∧ get ctx' "user" = Prim user.
Proof.
  induction steps as [|s steps IH]; intros h pending ctx Hsteps Hpending Hctx Hu.
  - cbn [run fst snd]. split; [|eauto].
    intros d view Hd. by apply elem_of_nil in Hd.
  - inversion_clear Hsteps as [|? ? Hs Hrest].
    destruct s as [u|c|i]; [discriminate| |]; cbn [run].
    + destruct (report_call_keeps this c h ctx Hctx)
        as ((ctx1 & Hctx1 & Hu1) & Hnone & Hof).
      destruct (report_call this c h) as [[f t] h1].
      cbn [fst snd] in *.
      assert (Hpending' : Forall (of_reporter this) (pending ++ option_list f)%list).
      { apply Forall_app. split; [done|].
        destruct f as [f|]; cbn [option_list]; [|done].
        constructor; [by apply Hof|done]. }
      destruct (IH h1 (pending ++ option_list f)%list ctx1 Hrest Hpending' Hctx1)
        as (Hd & Hend); [congruence|].
      destruct (run this steps h1 (pending ++ option_list f)%list)
        as [[t' h2] pending'].
      cbn [fst snd] in *. split; [|exact Hend].
      intros d view Hin Hv. unfold deliveries in Hin.
      rewrite filter_app in Hin. fold (deliveries t) in Hin.
      rewrite Hnone in Hin. by apply (Hd d view).
    + destruct (pending !! i) as [f|] eqn:Hf.
      * assert (Hof : of_reporter this f).
        { eapply Forall_lookup_1; eauto. }
        destruct (report_settle_keeps this f h ctx Hof Hctx)
          as ((ctx1 & Hctx1 & Hu1) & Hd1).
        destruct (report_settle this f h) as [t h1].
        cbn [fst snd] in *.
        assert (Hpending' : Forall (of_reporter this) (delete i pending)).
        { apply Forall_delete. exact Hpending. }
        destruct (IH h1 (delete i pending) ctx1 Hrest Hpending' Hctx1)
          as (Hd & Hend); [congruence|].
        destruct (run this steps h1 (delete i pending))
          as [[t' h2] pending'].
        cbn [fst snd] in *. split; [|exact Hend].
        intros d view Hin Hv. unfold deliveries in Hin.
        rewrite filter_app in Hin. apply elem_of_app in Hin as [Hin|Hin].
        -- rewrite <- Hu. by apply (Hd1 d view).
        -- by apply (Hd d view).
      * by apply (IH h pending ctx).
Qed.


(** Reports settled one after another: as many deliveries as reports. *)
Lemma run_one_after_another this calls : ∀ h : heap,
  disabled this = false →
  Forall (deliverable this) calls →
  length (deliveries (run this (one_after_another calls) h []).1.1)
  = length calls.
Proof.
  induction calls as [|c calls IH]; intros h Hen Hcalls; [done|].
  inversion_clear Hcalls as [|? ? Hc Hrest].
  change (one_after_another (c :: calls))
    with (StepCall c :: StepSettle 0 :: one_after_another calls).
  cbn [run].
  destruct (report_call_deliverable this c h Hen Hc)
    as (f & t & h1 & resolved & -> & Ht & Hres).
  cbv beta iota.
  change ([] ++ option_list (Some f))%list with [f].
  change ([f] !! 0) with (Some f).
  cbv beta iota.
  change (delete 0 [f]) with (@nil InFlight).
  pose proof (report_settle_delivers this f h1 resolved Hres) as Hone.
  destruct (report_settle this f h1) as [t2 h2]. cbn [fst snd] in Hone.
  specialize (IH h2 Hen Hrest).
  destruct (run this (one_after_another calls) h2 []) as [[t' h3] pending'].
  cbn [fst snd] in *.
  unfold deliveries in *. rewrite !filter_app, !length_app, Ht, Hone, IH.
  reflexivity.
Qed.

(** Reports called in one turn are all under way afterwards, and nothing
    has been delivered yet. *)
Lemma run_calls this calls : ∀ (h : heap) pending,
  disabled this = false →
  Forall (deliverable this) calls →
  ∃ fs,
    (run this (StepCall <$> calls) h pending).2 = (pending ++ fs)%list
    ∧ length fs = length calls
    ∧ Forall (λ f, ∃ resolved, f_resolved f = Fulfilled resolved) fs
    ∧ deliveries (run this (StepCall <$> calls) h pending).1.1 = [].
Proof.
  induction calls as [|c calls IH]; intros h pending Hen Hcalls.
  - exists []. cbn [fmap list_fmap run fst snd]. by rewrite app_nil_r.
  - inversion_clear Hcalls as [|? ? Hc Hrest].
    cbn [fmap list_fmap run].
    destruct (report_call_deliverable this c h Hen Hc)
      as (f & t & h1 & resolved & -> & Ht & Hres).
    cbv beta iota.
    change (option_list (Some f)) with [f].
    destruct (IH h1 (pending ++ [f])%list Hen Hrest)
      as (fs & Hpending & Hlen & Hfs & Hnone).
    fold (@fmap list _ _ _ StepCall calls) in *.
    destruct (run this (StepCall <$> calls) h1 (pending ++ [f])%list)
      as [[t' h2] pending'].
    cbn [fst snd] in *.
    exists (f :: fs). split; [|split; [|split]].
    + rewrite Hpending. by rewrite <- app_assoc.
    + cbn [length]. by rewrite Hlen.
    + constructor; eauto.
    + unfold deliveries in *. by rewrite filter_app, Ht, Hnone.
Qed.

(** Settling the reports under way, oldest first: one delivery each. *)
Lemma run_settles this pending : ∀ h : heap,
  Forall (λ f, ∃ resolved, f_resolved f = Fulfilled resolved) pending →
  length (deliveries
            (run this (replicate (length pending) (StepSettle 0)) h pending).1.1)
  = length pending.
Proof.
  induction pending as [|f pending IH]; intros h Hall; [done|].
  inversion_clear Hall as [|? ? [resolved Hres] Hrest].
  cbn [length replicate run].
  change ((f :: pending) !! 0) with (Some f).
  cbv beta iota.
  change (delete 0 (f :: pending)) with pending.
  pose proof (report_settle_delivers this f h resolved Hres) as Hone.
  destruct (report_settle this f h) as [t h1]. cbn [fst snd] in Hone.
  specialize (IH h1 Hrest).
  destruct (run this (replicate (length pending) (StepSettle 0)) h1 pending)
    as [[t' h2] pending'].
  cbn [fst snd] in *.
  unfold deliveries in *. by rewrite filter_app, length_app, Hone, IH.
Qed.

(** A schedule in two parts runs as the first part followed by the
    second. *)
Lemma run_app this first : ∀ second (h : heap) pending,
  run this (first ++ second) h pending
  = let '(t1, h1, p1) := run this first h pending in
    let '(t2, h2, p2) := run this second h1 p1 in
    ((t1 ++ t2)%list, h2, p2).
Proof.
  induction first as [|s first IH]; intros second h pending.
  - cbn [app run]. by destruct (run this second h pending) as [[t2 h2] p2].
  - cbn [app run]. destruct s as [u|c|i].
    + apply IH.
    + destruct (report_call this c h) as [[f t] h1].
      rewrite IH.
      destruct (run this first h1 (pending ++ option_list f)%list)
        as [[t1 h2] p1].
      destruct (run this second h2 p1) as [[t2 h3] p2].
      by rewrite app_assoc.
    + destruct (pending !! i) as [f|]; [|apply IH].
      destruct (report_settle this f h) as [t h1].
      rewrite IH.
      destruct (run this first h1 (delete i pending)) as [[t1 h2] p1].
      destruct (run this second h2 p1) as [[t2 h3] p2].
      by rewrite app_assoc.
Qed.

(** Reports called in one turn and settled afterwards: as many deliveries
    as reports. *)
Lemma run_all_then_settled this calls (h : heap) :
  disabled this = false →
  Forall (deliverable this) calls →
  length (deliveries (run this (all_then_settled calls) h []).1.1)
  = length calls.
Proof.
  intros Hen Hcalls. unfold all_then_settled. rewrite run_app.
  destruct (run_calls this calls h [] Hen Hcalls)
    as (fs & Hpending & Hlen & Hfs & Hnone).
  destruct (run this (StepCall <$> calls) h []) as [[t1 h1] p1].
  cbn [fst snd app] in *. subst p1.
  rewrite <- Hlen.
  pose proof (run_settles this fs h1 Hfs) as Hcount.
  destruct (run this (replicate (length fs) (StepSettle 0)) h1 fs)
    as [[t2 h2] p2].
  cbn [fst snd] in *.
  unfold deliveries in *. by rewrite filter_app, length_app, Hnone, Hcount.
Qed.

(** C9, as the code has it.  [setUser(user)] replaces the [user] property
    of the context object and changes nothing else in the store.  From then
    until the next call of [setUser], whatever reports are called and
    whenever their handlers run, every payload delivered carries that
    [user], the payload of a report called before the [setUser] included:
    the payload reads the shared context when it is delivered.  Reports on
    an enabled reporter that get past the guards and whose resolution yields
    a message are delivered, one payload each, be they settled one after
    another or called together and settled afterwards; so two such reports
    after [setUser("abc")] give two payloads that carry "abc", and after
    [setUser(undefined)] the payloads delivered carry [undefined]. *)
Theorem setUser_persists (this : Reporter) (user : prim) (h : heap)
    (ctx0 : gmap string value) :
  h !! context this = Some ctx0 →
  setUser this user h !! context this = Some (<["user" := Prim user]> ctx0)
  ∧ (∀ l, l ≠ context this → setUser this user h !! l = h !! l)
  ∧ (∀ steps pending,
       Forall (λ s, is_setUser s = false) steps →
       Forall (of_reporter this) pending →
       (∀ d view,
          d ∈ deliveries (run this steps (setUser this user h) pending).1.1 →
          delivered d = Some view →
          get (pv_context view) "user" = Prim user)
       ∧ get (deref (run this steps (setUser this user h) pending).1.2
                (context this)) "user"
         = Prim user)
  ∧ (∀ calls,
       disabled this = false →
       Forall (deliverable this) calls →
       length (deliveries
                 (run this (one_after_another calls) (setUser this user h)
                    []).1.1)
       = length calls
       ∧ length (deliveries
                   (run this (all_then_settled calls) (setUser this user h)
                      []).1.1)
         = length calls).
Proof.
  intros Hctx.
  assert (Hset : setUser this user h !! context this
                 = Some (<["user" := Prim user]> ctx0)).
  { unfold setUser, obj_set. by rewrite lookup_alter_eq, Hctx. }
  split; [exact Hset|].
  split.
  { intros l Hl. unfold setUser. by apply lookup_obj_set_ne. }
  split.
  - intros steps pending Hsteps Hpending.
    destruct (run_carries_user this user steps _ pending _ Hsteps Hpending Hset)
      as (Hd & ctx' & Hctx' & Hu); [apply get_insert_eq|].
    split; [exact Hd|].
    unfold deref. by rewrite Hctx'.
  - intros calls Hen Hcalls. split.
    + by apply run_one_after_another.
    + by apply run_all_then_settled.
Qed.

Lemma setUser_persists_witness :
  let abc := setUser Sample.http_reporter (Str "abc") Sample.store in
  let two := one_after_another [Sample.call_string; Sample.call_exn] in
  length (deliveries (run Sample.http_reporter two abc []).1.1) = 2
  ∧ (∀ d view,
       d ∈ deliveries (run Sample.http_reporter two abc []).1.1 →
       delivered d = Some view →
       get (pv_context view) "user" = Prim (Str "abc"))
  ∧ (∀ d view,
       d ∈ deliveries
             (run Sample.http_reporter [StepCall Sample.call_string; StepSettle 0]
                (setUser Sample.http_reporter Undefined
                   (run Sample.http_reporter two abc []).1.2) []).1.1 →
       delivered d = Some view →
       get (pv_context view) "user" = Prim Undefined).
Proof.
  intros abc two.
  pose proof (setUser_persists Sample.http_reporter (Str "abc") Sample.store
                {[ "user" := Prim (Str "u0") ]} eq_refl)
    as (_ & _ & Hcarry & Hcount).
  split; [|split].
  - apply (Hcount [Sample.call_string; Sample.call_exn]); [reflexivity|].
    repeat constructor; eexists _, _; split; reflexivity.
  - apply (Hcarry two []); repeat constructor.
  - pose proof (setUser_persists Sample.http_reporter Undefined
                  (run Sample.http_reporter two abc []).1.2
                  (deref (run Sample.http_reporter two abc []).1.2 Sample.ctx)
                  eq_refl)
      as (_ & _ & Hlater & _).
    apply (Hlater [StepCall Sample.call_string; StepSettle 0] []);
      repeat constructor.
Defined.

(** C9, as it is worded, does not hold of a report that is called before
    the next [setUser] and delivered after it: called while the user is
    "abc", its payload is delivered carrying [undefined]. *)
Lemma report_under_way_carries_the_later_user :
  ∃ d view,
    deliveries
      (run Sample.http_reporter
         [StepSetUser (Str "abc"); StepCall Sample.call_string;
          StepSetUser Undefined; StepSettle 0]
         Sample.store []).1.1 = [d]
    ∧ delivered d = Some view
    ∧ get (pv_context view) "user" = Prim Undefined
    ∧ get (pv_context view) "user" ≠ Prim (Str "abc").
Proof.
  eexists _, _. split; [reflexivity|]. split; [reflexivity|].
  split; [reflexivity|discriminate].
Qed.

(** ** C10: the payload shares the reporter's context *)

(** C10.  On an enabled reporter and for a non-empty error, the payload's
    [context] is the location of the reporter's context: the same object.
    [httpRequest] is written into that object before [resolveError] is
    called, and is still there when the report has settled, fulfilled or
    rejected; when the resolution rejects, or never settles, the store is
    exactly as that write made it.  On the HTTP path the [reportLocation] written for the
    report stays in the context, and the payload of any later report reads
    it there. *)
Theorem report_shares_context (this : Reporter) (amb : Ambient)
    (err : RawError) (options : option Options) (h : heap)
    (ctx0 : gmap string value) :
  disabled this = false →
  falsy err = false →
  h !! context this = Some ctx0 →
  let payload := (report_prepare this amb h).1 in
  let h1 := (report_prepare this amb h).2 in
  let h' := (report this amb err options h).2 in
  p_context payload = context this
  ∧ h1 !! context this = Some (<["httpRequest" := httpRequest amb]> ctx0)
  ∧ get (deref h' (context this)) "httpRequest" = httpRequest amb
  ∧ (∀ e t,
       promoted err = Some e →
       resolveError (fromError amb e) e
         (firstFrameIndex err (default {| skipLocalFrames := None |} options))
         (basePath this)
       = Rejected t →
       report this amb err options h = (Rejected t, [EvFromError e], h1))
  ∧ (∀ e,
       promoted err = Some e →
       resolveError (fromError amb e) e
         (firstFrameIndex err (default {| skipLocalFrames := None |} options))
         (basePath this)
       = Pending →
       report this amb err options h = (Pending, [EvFromError e], h1))
  ∧ (∀ e message location,
       customReportingFunction this = None →
       promoted err = Some e →
       resolveError (fromError amb e) e
         (firstFrameIndex err (default {| skipLocalFrames := None |} options))
         (basePath this)
       = Fulfilled (message, location) →
       get (deref h' (context this)) "reportLocation" = location
       ∧ ∀ amb2,
           get (pv_context (view (report_prepare this amb2 h').1
                              (report_prepare this amb2 h').2))
             "reportLocation"
           = location).
Proof.
  intros Hen Hfalsy Hctx payload h1 h'.
  destruct (report_enabled_cases this amb err options h ctx0 Hen Hfalsy Hctx)
    as (Hh1 & e & He & Hcases).
  fold h1 in Hh1, Hcases.
  split; [reflexivity|]. split; [exact Hh1|].
  split; [|split; [|split]].
  - subst h'.
    destruct Hcases as [(customFunc & m & l & Hc & Hres & Hrep)
                       |[(m & l & p & Hc & Hres & Hrep)
                        |(p & Hnone & Hrep)]];
      rewrite Hrep; simpl.
    + unfold deref. rewrite Hh1. apply get_insert_eq.
    + rewrite (deref_obj_set _ _ _ _ _ Hh1).
      rewrite get_insert_ne by done. apply get_insert_eq.
    + unfold deref. rewrite Hh1. apply get_insert_eq.
  - intros e' t He' Hrej. unfold report.
    rewrite Hen, Hfalsy. cbn [report_prepare fst snd].
    by rewrite He', Hrej.
  - intros e' He' Hpending. unfold report.
    rewrite Hen, Hfalsy. cbn [report_prepare fst snd].
    by rewrite He', Hpending.
  - intros e' message location Hc He' Hres.
    assert (e' = e) as -> by congruence.
    destruct Hcases as [(customFunc & m & l & Hc' & _)
                       |[(m & l & p & _ & Hres' & Hrep)
                        |(p & Hnone & _)]].
    + congruence.
    + assert (l = location) as -> by congruence.
      assert (Hh' : h' !! context this
                    = Some (<["reportLocation" := location]>
                              (<["httpRequest" := httpRequest amb]> ctx0))).
      { subst h'. rewrite Hrep. simpl. unfold obj_set.
        by rewrite lookup_alter_eq, Hh1. }
      split.
      * unfold deref. rewrite Hh'. apply get_insert_eq.
      * intros amb2. unfold view, report_prepare. simpl.
        rewrite (deref_obj_set _ _ _ _ _ Hh').
        rewrite get_insert_ne by done. apply get_insert_eq.
    + by destruct (Hnone _ Hres).
Qed.

Lemma report_shares_context_witness :
  let h' :=
    (report Sample.http_reporter Sample.failing_ambient (RError Sample.exn)
       None Sample.store).2 in
  get (deref h' Sample.ctx) "httpRequest" = httpRequest Sample.failing_ambient
  ∧ get (deref h' Sample.ctx) "reportLocation" = Obj ∅
  ∧ (report Sample.http_reporter Sample.failing_ambient (RError Sample.exn)
       None Sample.store).1.1
    = Rejected (ErrorObj "500 http response on stackdriver report").
Proof.
  intros h'.
  pose proof (report_shares_context Sample.http_reporter
                Sample.failing_ambient (RError Sample.exn) None Sample.store
                {[ "user" := Prim (Str "u0") ]} eq_refl eq_refl eq_refl)
    as (_ & _ & Hhttp & _ & _ & Hloc).
  split; [exact Hhttp|].
  split; [|reflexivity].
  exact (proj1 (Hloc Sample.exn _ _ eq_refl eq_refl eq_refl)).
Defined.

(** * Further properties of the code *)

(** ** [start]: what it stores *)

(** A [start] that returns has stored the configuration, with its defaults,
    and registered the handlers. *)
Lemma start_fields config w (h : heap) this w' h' :
  start config w h = inr (this, w', h') →
  customReportingFunction this = cfg_customReportingFunction config
  ∧ customMessageTranslator this = cfg_customMessageTranslator config
  ∧ apiKey this = cfg_key config
  ∧ projectId this = cfg_projectId config
  ∧ targetUrl this = cfg_targetUrl config
  ∧ basePath this = cfg_basePath config
  ∧ serviceContext this
    = {| service := or_else (cfg_service config) "web";
         version := if truthy (cfg_version config)
                    then cfg_version config else None |}
  ∧ reportUncaughtExceptions this
    = negb (bool_decide (cfg_reportUncaughtExceptions config = Some false))
  ∧ reportUnhandledPromiseRejections this
    = negb (bool_decide
              (cfg_reportUnhandledPromiseRejections config = Some false))
  ∧ disabled this = default false (cfg_disabled config)
  ∧ w' = registerHandlers this w.
Proof.
  unfold start. intros Hstart.
  destruct (negb (truthy (cfg_key config)) && _ && _); [discriminate|].
  destruct (negb (truthy (cfg_projectId config)) && _ && _); [discriminate|].
  destruct (cfg_context config); simplify_eq; repeat split.
Qed.

(** A [start] that returns had a usable configuration. *)
Lemma start_returns_usable config w (h : heap) this w' h' :
  start config w h = inr (this, w', h') → usable config.
Proof.
  intros Hstart.
  destruct (start_result config w h)
    as [(Hu & _)|(_ & message & Hthrow)]; [done|congruence].
Qed.

(** The first guard of [start] speaks first: without a target URL and a
    custom function, a missing API key is the error reported, also when the
    project id is missing too; the project id is only asked for once the key
    is there. *)
Theorem start_names_the_missing_part (config : Config) (w : Window)
    (h : heap) :
  truthy (cfg_targetUrl config) = false →
  cfg_customReportingFunction config = None →
  (truthy (cfg_key config) = false →
     start config w h
     = inl (ErrorObj "Cannot initialize: No API key, target url or custom reporting function provided."))
  ∧ (truthy (cfg_key config) = true →
     truthy (cfg_projectId config) = false →
     start config w h
     = inl (ErrorObj "Cannot initialize: No project ID, target url or custom reporting function provided.")).
Proof.
  intros Hurl Hcustom. unfold start. rewrite Hurl, Hcustom. split.
  - by intros ->.
  - by intros -> ->.
Qed.

Lemma start_names_the_missing_part_witness :
  start {| cfg_key := None; cfg_projectId := None;
           cfg_targetUrl := Some ""; cfg_customReportingFunction := None;
           cfg_customMessageTranslator := None; cfg_context := None;
           cfg_basePath := None; cfg_service := None; cfg_version := None;
           cfg_reportUncaughtExceptions := None;
           cfg_reportUnhandledPromiseRejections := None;
           cfg_disabled := None |} Scene.page_window Sample.store
  = inl (ErrorObj "Cannot initialize: No API key, target url or custom reporting function provided.").
Proof.
  apply start_names_the_missing_part; reflexivity.
Defined.

(** [config.context || {}]: a context brought by the configuration is the
    reporter's context, the same object and not a copy, and the store is as
    it was; without one the context is a new, empty object and every object
    already in the store is as it was. *)
Theorem start_context_shared_or_fresh (config : Config) (w : Window)
    (h : heap) (this : Reporter) (w' : Window) (h' : heap) :
  start config w h = inr (this, w', h') →
  match cfg_context config with
  | Some l => context this = l ∧ h' = h
  | None =>
      h !! context this = None
      ∧ h' !! context this = Some ∅
      ∧ ∀ l, l ≠ context this → h' !! l = h !! l
  end.
Proof.
  unfold start. intros Hstart.
  destruct (negb (truthy (cfg_key config)) && _ && _); [discriminate|].
  destruct (negb (truthy (cfg_projectId config)) && _ && _); [discriminate|].
  destruct (cfg_context config) as [l|]; simplify_eq; simpl.
  - done.
  - split; [|split].
    + apply not_elem_of_dom, is_fresh.
    + apply lookup_insert_eq.
    + intros l Hl. by apply lookup_insert_ne.
Qed.

Lemma start_context_shared_or_fresh_witness :
  ∃ this w' h',
    start Scene.project_config Scene.page_window Sample.store
    = inr (this, w', h')
    ∧ Sample.store !! context this = None
    ∧ h' !! context this = Some ∅
    ∧ h' !! Sample.ctx = Sample.store !! Sample.ctx.
Proof.
  eexists _, _, _. split; [reflexivity|].
  pose proof (start_context_shared_or_fresh Scene.project_config
                Scene.page_window Sample.store _ _ _ eq_refl)
    as (Hnew & Hempty & Hold).
  split; [exact Hnew|]. split; [exact Hempty|].
  apply Hold. discriminate.
Defined.

(** ** [start] followed by [report] *)

(** A reporter started with an API key and a project id, without target URL
    and custom function, posts a reported error to the Error Reporting URL
    of that project with that key; the payload names the configured service,
    "web" when none is configured, and the version when one is
    configured. *)
Theorem start_then_report_posts_to_project (config : Config) (w : Window)
    (h : heap) (this : Reporter) (w' : Window) (h' : heap)
    (key project : string) (amb : Ambient) (err : RawError)
    (options : option Options) (e : ExceptionLike) (message : string)
    (location : value) :
  start config w h = inr (this, w', h') →
  (∀ l, cfg_context config = Some l → is_Some (h !! l)) →
  cfg_key config = Some key →
  cfg_projectId config = Some project →
  truthy (cfg_targetUrl config) = false →
  cfg_customReportingFunction config = None →
  default false (cfg_disabled config) = false →
  falsy err = false →
  promoted err = Some e →
  resolveError (fromError amb e) e
    (firstFrameIndex err (default {| skipLocalFrames := None |} options))
    (cfg_basePath config)
  = Fulfilled (message, location) →
  ∃ body,
    deliveries (report this amb err options h').1.2
    = [EvXhrPost
         ("https://clouderrorreporting.googleapis.com/v1beta1/projects/"
          ++ project ++ "/events:report?key=" ++ key)
         "application/json; charset=UTF-8" body]
    ∧ service (pv_serviceContext body)
      = match cfg_service config with
        | Some (String c s) => String c s
        | _ => "web"
        end
    ∧ version (pv_serviceContext body)
      = match cfg_version config with
        | Some (String c s) => Some (String c s)
        | _ => None
        end.
Proof.
  intros Hstart Halloc Hkey Hproject Hurl Hcustom Hdisabled Hfalsy He Hres.
  destruct (start_fields _ _ _ _ _ _ Hstart)
    as (Hc & _ & Hk & Hp & Ht & Hb & Hsc & _ & _ & Hd & _).
  destruct (start_context_allocated _ _ _ _ _ _ Halloc Hstart) as [ctx0 Hctx].
  rewrite Hdisabled in Hd. rewrite <- Hb in Hres.
  destruct (report_enabled_cases this amb err options h' ctx0 Hd Hfalsy Hctx)
    as (_ & e' & He' & Hcases).
  assert (e' = e) as -> by congruence.
  destruct Hcases as [(customFunc & _ & _ & Hc' & _)
                     |[(m & l & p & _ & _ & Hrep)
                      |(p & Hnone & _)]].
  - congruence.
  - rewrite Hrep. cbn [fst snd]. rewrite deliveries_post.
    eexists. split; [|split].
    + unfold reportUrl. rewrite Ht, Hp, Hk, Hproject, Hkey.
      destruct (cfg_targetUrl config) as [[|c s]|]; try discriminate;
        reflexivity.
    + cbn [pv_serviceContext]. rewrite Hsc.
      by destruct (cfg_service config) as [[|c s]|].
    + cbn [pv_serviceContext]. rewrite Hsc.
      by destruct (cfg_version config) as [[|c s]|].
  - by destruct (Hnone _ Hres).
Qed.

Lemma start_then_report_posts_to_project_witness :
  ∃ this w' h' body,
    start Scene.project_config Scene.page_window Sample.store
    = inr (this, w', h')
    ∧ deliveries (report this Sample.ok_ambient (RError Sample.exn) None
                    h').1.2
      = [EvXhrPost
           "https://clouderrorreporting.googleapis.com/v1beta1/projects/p/events:report?key=k"
           "application/json; charset=UTF-8" body]
    ∧ service (pv_serviceContext body) = "web"
    ∧ version (pv_serviceContext body) = Some "1.2".
Proof.
  eexists _, _, _.
  edestruct start_then_report_posts_to_project
    with (config := Scene.project_config) (w := Scene.page_window)
         (h := Sample.store) (key := "k") (project := "p")
         (amb := Sample.ok_ambient) (err := RError Sample.exn)
         (options := @None Options) (e := Sample.exn)
    as (body & Hbody); try reflexivity.
  - intros l Hl. discriminate Hl.
  - exists body. split; [reflexivity|]. exact Hbody.
Defined.

(** ** The handlers at work *)

(** Calling the handler a slot held before, [noop] when it held none, is
    what the browser did before the library came. *)
Lemma call_onerror_default w args :
  call_onerror (default Noop (onerror w)) args = fire_onerror w args.
Proof. unfold fire_onerror. by destruct (onerror w). Qed.

Lemma call_onunhandledrejection_default w arg :
  call_onunhandledrejection (default Noop (onunhandledrejection w)) arg
  = fire_onunhandledrejection w arg.
Proof. unfold fire_onunhandledrejection. by destruct (onunhandledrejection w). Qed.

Lemma registerHandlers_onerror reporter w :
  onerror (registerHandlers reporter w)
  = if reportUncaughtExceptions reporter
    then Some (ReportingOnError (default Noop (onerror w)))
    else onerror w.
Proof.
  unfold registerHandlers.
  by destruct (reportUncaughtExceptions reporter),
              (reportUnhandledPromiseRejections reporter).
Qed.

Lemma registerHandlers_onunhandledrejection reporter w :
  onunhandledrejection (registerHandlers reporter w)
  = if reportUnhandledPromiseRejections reporter
    then Some (ReportingOnRejection (default Noop (onunhandledrejection w)))
    else onunhandledrejection w.
Proof.
  unfold registerHandlers.
  by destruct (reportUncaughtExceptions reporter),
              (reportUnhandledPromiseRejections reporter).
Qed.

(** After [start], unless [reportUncaughtExceptions] was [false], an
    uncaught error is reported when [error] is truthy, then everything the
    window did before is still done, with the same arguments, and the call
    returns [true].  The [disabled] flag plays no part in this: the handler
    of a disabled reporter is installed and returns [true] all the same. *)
Theorem start_wraps_onerror (config : Config) (w : Window) (h : heap)
    (this : Reporter) (w' : Window) (h' : heap) (args : ErrorArgs)
    (before : list Action) (returned : Returned) :
  start config w h = inr (this, w', h') →
  cfg_reportUncaughtExceptions config ≠ Some false →
  fire_onerror w args = Some (before, returned) →
  fire_onerror w' args
  = Some ((if falsy (ea_error args) then [] else [ActReport (ea_error args)])
          ++ before, ReturnedTrue)%list.
Proof.
  intros Hstart Hflag Hbefore.
  destruct (start_fields _ _ _ _ _ _ Hstart)
    as (_ & _ & _ & _ & _ & _ & _ & Hu & _ & _ & ->).
  rewrite bool_decide_eq_false_2 in Hu by done. simpl in Hu.
  unfold fire_onerror at 1.
  rewrite registerHandlers_onerror, Hu.
  cbn [call_onerror].
  by rewrite call_onerror_default, Hbefore.
Qed.

Lemma start_wraps_onerror_witness :
  ∃ this w' h',
    start Scene.disabled_config Scene.page_window Sample.store
    = inr (this, w', h')
    ∧ disabled this = true
    ∧ fire_onerror w' Scene.args
      = Some ([ActReport (RError Sample.exn); ActPageOnError 7 Scene.args],
              ReturnedTrue).
Proof.
  eexists _, _, _. split; [reflexivity|]. split; [reflexivity|].
  eapply (start_wraps_onerror Scene.disabled_config Scene.page_window
            Sample.store _ _ _ Scene.args [ActPageOnError 7 Scene.args]);
    [reflexivity|discriminate|reflexivity].
Defined.

(** Handlers registered [n] times, as by [n] calls of [start], wrap each
    other: one uncaught error with a truthy [error] is reported [n] times,
    and what the window did before is done once, after the reports. *)
Theorem registerHandlers_nests (reporter : Reporter) (w : Window)
    (args : ErrorArgs) (before : list Action) (returned : Returned) (n : nat) :
  reportUncaughtExceptions reporter = true →
  fire_onerror w args = Some (before, returned) →
  fire_onerror (Nat.iter (S n) (registerHandlers reporter) w) args
  = Some ((if falsy (ea_error args) then []
           else replicate (S n) (ActReport (ea_error args))) ++ before,
          ReturnedTrue)%list.
Proof.
  intros Hflag Hbefore.
  induction n as [|n IH].
  - simpl Nat.iter. unfold fire_onerror at 1.
    rewrite registerHandlers_onerror, Hflag. cbn [call_onerror].
    rewrite call_onerror_default, Hbefore.
    by destruct (falsy (ea_error args)).
  - change (Nat.iter (S (S n)) (registerHandlers reporter) w)
      with (registerHandlers reporter
              (Nat.iter (S n) (registerHandlers reporter) w)).
    unfold fire_onerror at 1.
    rewrite registerHandlers_onerror, Hflag. cbn [call_onerror].
    rewrite call_onerror_default, IH.
    by destruct (falsy (ea_error args)).
Qed.

Lemma registerHandlers_nests_witness :
  fire_onerror
    (registerHandlers Sample.http_reporter
       (registerHandlers Sample.http_reporter Scene.page_window))
    Scene.args
  = Some ([ActReport (RError Sample.exn); ActReport (RError Sample.exn);
           ActPageOnError 7 Scene.args], ReturnedTrue).
Proof.
  apply (registerHandlers_nests Sample.http_reporter Scene.page_window
           Scene.args [ActPageOnError 7 Scene.args] (ReturnedByPage 7) 1);
    reflexivity.
Defined.

(** [start] with [reportUncaughtExceptions: false] leaves [window.onerror]
    as it was, and with [reportUnhandledPromiseRejections: false] leaves
    [window.onunhandledrejection] as it was; each flag governs its own slot
    only. *)
Theorem start_leaves_slots_of_false_flags (config : Config) (w : Window)
    (h : heap) (this : Reporter) (w' : Window) (h' : heap) :
  start config w h = inr (this, w', h') →
  (cfg_reportUncaughtExceptions config = Some false → onerror w' = onerror w)
  ∧ (cfg_reportUnhandledPromiseRejections config = Some false →
     onunhandledrejection w' = onunhandledrejection w).
Proof.
  intros Hstart.
  destruct (start_fields _ _ _ _ _ _ Hstart)
    as (_ & _ & _ & _ & _ & _ & _ & Hu & Hr & _ & ->).
  split; intros Hflag.
  - rewrite registerHandlers_onerror, Hu.
    by rewrite bool_decide_eq_true_2.
  - rewrite registerHandlers_onunhandledrejection, Hr.
    by rewrite bool_decide_eq_true_2.
Qed.

Lemma start_leaves_slots_of_false_flags_witness :
  ∃ this w' h',
    start Scene.disabled_config Scene.page_window Sample.store
    = inr (this, w', h')
    ∧ onunhandledrejection w' = Some (PageHandler 8).
Proof.
  eexists _, _, _. split; [reflexivity|].
  apply (start_leaves_slots_of_false_flags Scene.disabled_config
           Scene.page_window Sample.store _ _ _ eq_refl).
  reflexivity.
Defined.

(** After [start], unless [reportUnhandledPromiseRejections] was [false],
    an unhandled rejection is reported with the reason of the event, falsy or
    not, and the handler the window had before is called with that bare
    reason, not with the event.  Called without an event, the handler throws
    a TypeError before it has reported anything or called the handler it
    replaced. *)
Theorem start_wraps_onunhandledrejection (config : Config) (w : Window)
    (h : heap) (this : Reporter) (w' : Window) (h' : heap)
    (reason : RawError) (before : list Action) (outcome : Thrown + Returned) :
  start config w h = inr (this, w', h') →
  cfg_reportUnhandledPromiseRejections config ≠ Some false →
  fire_onunhandledrejection w (Passed reason) = Some (before, outcome) →
  fire_onunhandledrejection w' (FromBrowser reason)
  = Some (ActReport reason :: before,
          match outcome with
          | inl t => inl t
          | inr _ => inr ReturnedTrue
          end)
  ∧ fire_onunhandledrejection w' (Passed RUndefined) = Some ([], inl TypeError).
Proof.
  intros Hstart Hflag Hbefore.
  destruct (start_fields _ _ _ _ _ _ Hstart)
    as (_ & _ & _ & _ & _ & _ & _ & _ & Hr & _ & ->).
  rewrite bool_decide_eq_false_2 in Hr by done. simpl in Hr.
  unfold fire_onunhandledrejection.
  rewrite registerHandlers_onunhandledrejection, Hr.
  cbn [call_onunhandledrejection arg_truthy arg_reason falsy negb].
  rewrite call_onunhandledrejection_default, Hbefore.
  by destruct outcome.
Qed.

Lemma start_wraps_onunhandledrejection_witness :
  ∃ this w' h',
    start Scene.project_config Scene.page_window Sample.store
    = inr (this, w', h')
    ∧ fire_onunhandledrejection w' (FromBrowser RUndefined)
      = Some ([ActReport RUndefined; ActPageOnRejection 8 (Passed RUndefined)],
              inr ReturnedTrue)
    ∧ fire_onunhandledrejection w' (Passed RUndefined)
      = Some ([], inl TypeError).
Proof.
  eexists _, _, _. split; [reflexivity|].
  eapply (start_wraps_onunhandledrejection Scene.project_config
            Scene.page_window Sample.store _ _ _ RUndefined
            [ActPageOnRejection 8 (Passed RUndefined)]
            (inr (ReturnedByPage 8)));
    [reflexivity|discriminate|reflexivity].
Defined.

(** Rejection handlers registered twice do not chain as the error handlers
    do: the inner wrapper is called with the reason in place of the event.
    For a string or an exception-like object as reason, it reports
    [undefined] and hands [undefined] to what the window did before; for
    [undefined] or [null] as reason, it throws a TypeError and what the
    window did before is not done. *)
Theorem registerHandlers_twice_on_rejection (first second : Reporter)
    (w : Window) (reason : RawError) (before : list Action)
    (outcome : Thrown + Returned) :
  reportUnhandledPromiseRejections first = true →
  reportUnhandledPromiseRejections second = true →
  fire_onunhandledrejection w (Passed RUndefined) = Some (before, outcome) →
  fire_onunhandledrejection
    (registerHandlers second (registerHandlers first w)) (FromBrowser reason)
  = match reason with
    | RUndefined | RNull => Some ([ActReport reason], inl TypeError)
    | _ =>
        Some ((ActReport reason
               :: (if falsy reason then [] else [ActReport RUndefined])
               ++ before)%list,
              match outcome with
              | inl t => inl t
              | inr _ => inr ReturnedTrue
              end)
    end.
Proof.
  intros Hfirst Hsecond Hbefore.
  unfold fire_onunhandledrejection at 1.
  rewrite !registerHandlers_onunhandledrejection, Hfirst, Hsecond.
  rewrite <- call_onunhandledrejection_default in Hbefore.
  set (old := default Noop (onunhandledrejection w)) in *.
  destruct reason as [| |s|s|e];
    cbn [default from_option id call_onunhandledrejection arg_truthy
         arg_reason falsy negb].
  - reflexivity.
  - reflexivity.
  - rewrite Hbefore. by destruct s, outcome.
  - rewrite Hbefore. by destruct outcome.
  - rewrite Hbefore. by destruct outcome.
Qed.

Lemma registerHandlers_twice_on_rejection_witness :
  fire_onunhandledrejection
    (registerHandlers Sample.http_reporter
       (registerHandlers Sample.http_reporter Scene.page_window))
    (FromBrowser (RError Sample.exn))
  = Some ([ActReport (RError Sample.exn); ActReport RUndefined;
           ActPageOnRejection 8 (Passed RUndefined)], inr ReturnedTrue).
Proof.
  apply (registerHandlers_twice_on_rejection Sample.http_reporter
           Sample.http_reporter Scene.page_window (RError Sample.exn)
           [ActPageOnRejection 8 (Passed RUndefined)]
           (inr (ReturnedByPage 8))); reflexivity.
Defined.

(** ** [report]: what it leaves alone *)

Lemma deref_obj_set_other l k v (h : heap) l' k' :
  l ≠ l' ∨ k ≠ k' →
  deref (obj_set l k v h) l' !! k' = deref h l' !! k'.
Proof.
  intros Hne. unfold deref, obj_set.
  destruct (decide (l = l')) as [->|Hl].
  - rewrite lookup_alter_eq.
    destruct (h !! l') as [o|]; simpl; [|done].
    destruct Hne as [?|Hk]; [done|]. by rewrite lookup_insert_ne.
  - by rewrite lookup_alter_ne.
Qed.

Lemma dom_obj_set l k v (h : heap) : dom (obj_set l k v h) = dom h.
Proof. unfold obj_set. apply dom_alter_L. Qed.

(** The store a report leaves: the one it found, or that one with
    [httpRequest] written to the context, or with [reportLocation] written
    after it. *)
Lemma report_store this amb err options (h : heap) :
  let h' := (report this amb err options h).2 in
  let h1 := obj_set (context this) "httpRequest" (httpRequest amb) h in
  h' = h ∨ h' = h1
  ∨ ∃ location, h' = obj_set (context this) "reportLocation" location h1.
Proof.
  unfold report.
  destruct (disabled this); [by left|].
  destruct (falsy err); [by left|].
  cbn [report_prepare p_context].
  destruct (promoted err) as [e|]; [|by right; left].
  destruct (resolveError _ _ _ _) as [[message location]| |];
    [|by right; left|by right; left].
  unfold report_then.
  destruct (customReportingFunction this); [by right; left|].
  right; right. exists location. reflexivity.
Qed.

(** Whatever is reported and however the report ends, it adds no object to
    the store and removes none, and the only properties it writes are
    [httpRequest] and [reportLocation] of the reporter's context: every
    other property of the context, [user] among them, and every property of
    every other object is as it was. *)
Theorem report_writes_only_its_two_fields (this : Reporter) (amb : Ambient)
    (err : RawError) (options : option Options) (h : heap) (l : loc)
    (k : string) :
  l ≠ context this ∨ (k ≠ "httpRequest" ∧ k ≠ "reportLocation") →
  deref (report this amb err options h).2 l !! k = deref h l !! k
  ∧ dom (report this amb err options h).2 = dom h.
Proof.
  intros Hother.
  assert (H1 : context this ≠ l ∨ "httpRequest" ≠ k).
  { destruct Hother as [Hl|[Hk _]]; [left|right]; congruence. }
  assert (H2 : context this ≠ l ∨ "reportLocation" ≠ k).
  { destruct Hother as [Hl|[_ Hk]]; [left|right]; congruence. }
  destruct (report_store this amb err options h) as [->|[->|[location ->]]].
  - done.
  - split; [by apply deref_obj_set_other|apply dom_obj_set].
  - split.
    + by rewrite !deref_obj_set_other.
    + by rewrite !dom_obj_set.
Qed.

Lemma report_writes_only_its_two_fields_witness :
  deref (report Sample.http_reporter Sample.ok_ambient (RString "boom") None
           Sample.store).2 Sample.ctx !! "user"
  = Some (Prim (Str "u0"))
  ∧ dom (report Sample.http_reporter Sample.ok_ambient (RString "boom") None
           Sample.store).2 = dom Sample.store.
Proof.
  apply (report_writes_only_its_two_fields Sample.http_reporter
           Sample.ok_ambient (RString "boom") None Sample.store Sample.ctx
           "user").
  right. split; discriminate.
Defined.

(** ** [report] over HTTP, end to end *)

(** On the HTTP path, when the resolution yields a message and the request
    is done with status [code], the promise [report] returns is fulfilled
    exactly when [200 <= code < 300], with [{message: m}] where [m] is the
    message that was posted; with any other status it is rejected, the
    request having been sent all the same. *)
Theorem report_over_http_settles (this : Reporter) (amb : Ambient)
    (err : RawError) (options : option Options) (h : heap)
    (ctx0 : gmap string value) (e : ExceptionLike) (message : string)
    (location : value) (pre post : list (N * N)) (code : N) :
  disabled this = false →
  falsy err = false →
  promoted err = Some e →
  h !! context this = Some ctx0 →
  customReportingFunction this = None →
  resolveError (fromError amb e) e
    (firstFrameIndex err (default {| skipLocalFrames := None |} options))
    (basePath this)
  = Fulfilled (message, location) →
  xhr_events amb = (pre ++ (4%N, code) :: post)%list →
  Forall (λ ev : N * N, ev.1 ≠ 4%N) pre →
  ∃ url contentType body,
    deliveries (report this amb err options h).1.2
    = [EvXhrPost url contentType body]
    ∧ pv_message body = Some (translated this message)
    ∧ ((200 ≤ code < 300)%N →
       (report this amb err options h).1.1
       = Fulfilled (Obj {["message" := Prim (Str (translated this message))]}))
    ∧ (¬ (200 ≤ code < 300)%N →
       ∃ t, (report this amb err options h).1.1 = Rejected t).
Proof.
  intros Hen Hfalsy He Hctx Hc Hres Hevents Hpre.
  rewrite (report_resolved _ _ _ _ _ _ _ Hen Hfalsy He Hres).
  unfold report_then, translated. rewrite Hc.
  destruct (sendErrorPayload _ _ _ _) as [p evs] eqn:Hsend.
  pose proof (f_equal fst Hsend) as Hp. pose proof (f_equal snd Hsend) as Hevs.
  rewrite Hevents in Hp.
  rewrite sendErrorPayload_first_done in Hp by done.
  cbn [fst snd] in *. subst p evs.
  eexists _, _, _. split; [reflexivity|]. split; [reflexivity|].
  unfold onreadystatechange. cbn [N.eqb Pos.eqb p_message of_string settle].
  split.
  - intros [Hlo Hhi].
    apply N.leb_le in Hlo. apply N.ltb_lt in Hhi. by rewrite Hlo, Hhi.
  - intros Hout.
    destruct (N.leb_spec 200 code), (N.ltb_spec code 300);
      cbn [andb]; try lia.
    all: destruct (code =? 429)%N; eauto.
Qed.

Lemma report_over_http_settles_witness :
  ∃ url contentType body,
    deliveries (report Sample.http_reporter Sample.ok_ambient (RString "boom")
                  None Sample.store).1.2
    = [EvXhrPost url contentType body]
    ∧ (report Sample.http_reporter Sample.ok_ambient (RString "boom") None
         Sample.store).1.1
      = Fulfilled
          (Obj {["message" :=
                   Prim (Str "Error: boom\n    at <anonymous> (https://x/lib/b.js:20:3)")]}).
Proof.
  edestruct report_over_http_settles
    with (this := Sample.http_reporter) (amb := Sample.ok_ambient)
         (err := RString "boom") (options := @None Options)
         (h := Sample.store) (pre := [(2%N, 200%N)]) (post := @nil (N * N))
         (code := 200%N)
    as (url & contentType & body & Hsent & _ & Hok & _); try reflexivity.
  - repeat constructor. discriminate.
  - exists url, contentType, body. split; [exact Hsent|].
    apply Hok. lia.
Defined.

(** ** [sendErrorPayload]: a request that is never done *)

(** A promise still pending after some events was pending before them, and
    none of them had [readyState] 4. *)
Lemma fold_events_pending payload events : ∀ p : Promise value Thrown,
  fold_left (λ p ev, onreadystatechange payload ev.1 ev.2 p) events p = Pending →
  p = Pending ∧ Forall (λ ev : N * N, ev.1 ≠ 4%N) events.
Proof.
  induction events as [|[readyState code] events IH]; intros p Hfold.
  - by split.
  - simpl in Hfold. apply IH in Hfold as [Hstep Hrest].
    destruct (decide (readyState = 4%N)) as [->|Hne].
    + destruct p as [v|t|].
      * by rewrite onreadystatechange_settled in Hstep.
      * by rewrite onreadystatechange_settled in Hstep.
      * by apply onreadystatechange_done_not_pending in Hstep.
    + rewrite onreadystatechange_other in Hstep by done.
      split; [done|]. by constructor.
Qed.

(** The promise of the transport stays pending exactly when no
    readystatechange event has [readyState] 4: nothing in the library times
    a request out. *)
Theorem sendErrorPayload_pending_iff (events : list (N * N)) (url : string)
    (payload : Payload) (h : heap) :
  (sendErrorPayload events url payload h).1 = Pending
  ↔ Forall (λ ev : N * N, ev.1 ≠ 4%N) events.
Proof.
  unfold sendErrorPayload. cbn [fst]. split.
  - intros Hpending. by apply fold_events_pending in Hpending as [_ ?].
  - intros Hall. by apply fold_events_not_done.
Qed.

(** ** [setUser]: the last call decides *)

(** Of two [setUser] calls in a row only the second shows in the store. *)
Theorem setUser_last_wins (this : Reporter) (first second : prim) (h : heap) :
  setUser this second (setUser this first h) = setUser this second h.
Proof.
  unfold setUser, obj_set. apply map_eq. intros l.
  destruct (decide (context this = l)) as [<-|Hne].
  - rewrite !lookup_alter_eq.
    destruct (h !! context this) as [o|]; simpl; [|done].
    by rewrite insert_insert_eq.
  - by rewrite !lookup_alter_ne.
Qed.

(** A report and a [setUser] may come in either order: the store is the
    same in the end, so a user set while a report is under way is neither
    lost nor undone by it. *)
Theorem report_setUser_commute (this : Reporter) (amb : Ambient)
    (err : RawError) (options : option Options) (user : prim) (h : heap) :
  (report this amb err options (setUser this user h)).2
  = setUser this user (report this amb err options h).2.
Proof.
  assert (Hswap : ∀ k v (g : heap), k ≠ "user" →
            obj_set (context this) k v (setUser this user g)
            = setUser this user (obj_set (context this) k v g)).
  { intros k v g Hk. unfold setUser, obj_set. apply map_eq. intros l.
    destruct (decide (context this = l)) as [<-|Hne].
    - rewrite !lookup_alter_eq.
      destruct (g !! context this) as [o|]; simpl; [|done].
      by rewrite insert_insert_ne.
    - by rewrite !lookup_alter_ne. }
  unfold report.
  destruct (disabled this); [done|].
  destruct (falsy err); [done|].
  cbn [report_prepare p_context].
  destruct (promoted err) as [e|]; [|by apply Hswap].
  destruct (resolveError _ _ _ _) as [[message location]| |];
    [|by apply Hswap|by apply Hswap].
  unfold report_then.
  destruct (customReportingFunction this); [by apply Hswap|].
  cbn [sendErrorPayload p_context snd].
  by rewrite !Hswap.
Qed.

(** ** [report]: strings, options and the translator *)

Lemma join_cons sep x l :
  ∃ rest, join sep (x :: l) = x ++ rest.
Proof.
  destruct l as [|y l].
  - exists "". simpl. induction x as [|c x IH]; [done|].
    change (String c x = String c (x ++ "")). by rewrite <- IH.
  - by exists (sep ++ join sep (y :: l)).
Qed.

(** A non-empty string, primitive or String object, reported on an enabled
    reporter: when the stack resolves with a frame at the first kept index
    and that frame has a file name, exactly one payload is delivered, and its
    message is the message translator's image, or the message itself when
    no translator is configured, of a message that starts with "Error: " and
    the string. *)
Theorem report_string_message (this : Reporter) (amb : Ambient)
    (err : RawError) (c : Ascii.ascii) (s : string) (options : option Options)
    (h : heap) (stack : list StackFrame) (frame : StackFrame) (path : string) :
  disabled this = false →
  err = RString (String c s) ∨ err = RStringObject (String c s) →
  fromError amb (new_Error (String c s)) = Fulfilled stack →
  stack !! firstFrameIndex err (default {| skipLocalFrames := None |} options)
  = Some frame →
  getFileName frame = Some path →
  ∃ d view rest,
    deliveries (report this amb err options h).1.2 = [d]
    ∧ delivered d = Some view
    ∧ pv_message view
      = Some (translated this ("Error: " ++ String c s ++ rest)).
Proof.
  intros Hen Herr Hstack Hframe Hpath.
  assert (Hfalsy : falsy err = false) by (by destruct Herr as [->| ->]).
  assert (He : promoted err = Some (new_Error (String c s)))
    by (by destruct Herr as [->| ->]).
  destruct (join_cons escaped_newline (toString (new_Error (String c s)))
              (frame_line <$>
               drop (firstFrameIndex err
                       (default {| skipLocalFrames := None |} options)) stack))
    as [rest Hrest].
  pose proof (resolveError_fulfilled stack (new_Error (String c s)) _
                (basePath this) _ _ Hframe Hpath) as Hres.
  rewrite <- Hstack in Hres.
  destruct (report_delivers this amb err options h _ _ _ Hen Hfalsy He Hres)
    as (d & view & Hd & Hv & Hm).
  exists d, view, rest. split; [done|]. split; [done|].
  rewrite Hm, Hrest. reflexivity.
Qed.

Lemma report_string_message_witness :
  ∃ d view rest,
    deliveries (report Sample.http_reporter Sample.ok_ambient
                  (RStringObject "boom") None Sample.store).1.2 = [d]
    ∧ delivered d = Some view
    ∧ pv_message view = Some ("Error: boom" ++ rest).
Proof.
  apply (report_string_message Sample.http_reporter Sample.ok_ambient
           (RStringObject "boom") "b" "oom" None Sample.store
           [Sample.frame_a; Sample.frame_b] Sample.frame_b
           "https://x/lib/b.js"); try reflexivity.
  by right.
Defined.

(** [options] has no say in the report of an exception-like object; and for
    any input a [skipLocalFrames] of 0 or of 1 gives the report that no
    options give. *)
Theorem report_options_without_effect (this : Reporter) (amb : Ambient)
    (err : RawError) (e : ExceptionLike) (options : option Options)
    (h : heap) :
  report this amb (RError e) options h = report this amb (RError e) None h
  ∧ report this amb err (Some {| skipLocalFrames := Some 0 |}) h
    = report this amb err None h
  ∧ report this amb err (Some {| skipLocalFrames := Some 1 |}) h
    = report this amb err None h.
Proof.
  split; [|split]; unfold report; by destruct err.
Qed.

(** A configured message translator is applied to the resolved message on
    the custom path and on the HTTP path alike: whatever is delivered carries
    the translation. *)
Theorem report_translates_on_both_paths (this : Reporter) (amb : Ambient)
    (err : RawError) (options : option Options) (h : heap)
    (e : ExceptionLike) (message : string) (location : value)
    (translate : string → string) :
  disabled this = false →
  falsy err = false →
  promoted err = Some e →
  customMessageTranslator this = Some translate →
  resolveError (fromError amb e) e
    (firstFrameIndex err (default {| skipLocalFrames := None |} options))
    (basePath this)
  = Fulfilled (message, location) →
  ∃ d view,
    deliveries (report this amb err options h).1.2 = [d]
    ∧ delivered d = Some view
    ∧ pv_message view = Some (translate message).
Proof.
  intros Hen Hfalsy He Htranslate Hres.
  destruct (report_delivers this amb err options h e message location
              Hen Hfalsy He Hres) as (d & view & Hd & Hv & Hm).
  exists d, view. split; [done|]. split; [done|].
  rewrite Hm. unfold translated. by rewrite Htranslate.
Qed.

Lemma report_translates_on_both_paths_witness :
  ∃ d view,
    deliveries (report Scene.translating_reporter Sample.failing_ambient
                  (RError Sample.exn) None Sample.store).1.2 = [d]
    ∧ delivered d = Some view
    ∧ pv_message view
      = Some ("[t] Error extracting stack trace: Error: Cannot parse given Error object"
              ++ newline ++ "RangeError: boom" ++ newline ++ "    (app.js:3:)").
Proof.
  apply (report_translates_on_both_paths Scene.translating_reporter
           Sample.failing_ambient (RError Sample.exn) None Sample.store
           Sample.exn _ (Obj ∅) (λ m, "[t] " ++ m)); reflexivity.
Defined.

(** ** [resolveError]: when it is fulfilled, and with which path *)

(** Once the stack is resolved, [resolveError] is settled: fulfilled exactly
    when the stack has a frame at [firstFrameIndex] and that frame has a
    file name, rejected with a TypeError in every other case, an empty stack
    and an index past the last frame among them. *)
Theorem resolveError_fulfilled_iff (stack : list StackFrame)
    (err : ExceptionLike) (firstFrameIndex : nat)
    (fileBasePath : option string) :
  ((∃ resolved,
      resolveError (Fulfilled stack) err firstFrameIndex fileBasePath
      = Fulfilled resolved)
   ↔ ∃ frame path,
       stack !! firstFrameIndex = Some frame ∧ getFileName frame = Some path)
  ∧ (resolveError (Fulfilled stack) err firstFrameIndex fileBasePath
     = Rejected TypeError
     ↔ ¬ ∃ frame path,
           stack !! firstFrameIndex = Some frame
           ∧ getFileName frame = Some path).
Proof.
  unfold resolveError.
  destruct (stack !! firstFrameIndex) as [frame|] eqn:Hframe.
  - destruct (getFileName frame) as [path|] eqn:Hpath.
    + split; split.
      * intros _. eauto.
      * intros _. eauto.
      * discriminate.
      * intros Hno. destruct Hno. eauto.
    + split; split.
      * intros [? ?]; discriminate.
      * intros (f & p & Hf & Hp). congruence.
      * intros _ (f & p & Hf & Hp). congruence.
      * done.
  - split; split.
    + intros [? ?]; discriminate.
    + intros (f & p & Hf & _). discriminate.
    + intros _ (f & p & Hf & _). discriminate.
    + done.
Qed.

Lemma occurs_app c a b : occurs c (a ++ b) = occurs c a || occurs c b.
Proof.
  induction a as [|x a IH]; [done|].
  change (occurs c (String x (a ++ b))
          = (Ascii.eqb x c || occurs c a) || occurs c b).
  simpl. rewrite IH. by rewrite orb_assoc.
Qed.

Lemma occurs_strip_query segment : occurs "?" (strip_query segment) = false.
Proof.
  induction segment as [|x rest IH]; simpl; [done|].
  destruct (Ascii.eqb x "?") eqn:Hx; simpl; [done|]. by rewrite Hx.
Qed.

Lemma occurs_join_stripped segments :
  occurs "?" (join "/" (strip_query <$> segments)) = false.
Proof.
  induction segments as [|a [|b l] IH]; simpl.
  - done.
  - apply occurs_strip_query.
  - rewrite !occurs_app, occurs_strip_query. simpl. exact IH.
Qed.

(** The file path of the location is the base path, a slash, and a name in
    which no question mark is left: every query string has been cut off,
    wherever in the path it stood. *)
Theorem resolveError_location_has_no_query (stack : list StackFrame)
    (err : ExceptionLike) (firstFrameIndex : nat)
    (fileBasePath : option string) (frame : StackFrame) (path : string) :
  stack !! firstFrameIndex = Some frame →
  getFileName frame = Some path →
  ∃ message fields name,
    resolveError (Fulfilled stack) err firstFrameIndex fileBasePath
    = Fulfilled (message, Obj fields)
    ∧ get fields "filePath"
      = Prim (Str (to_string fileBasePath ++ "/" ++ name))
    ∧ occurs "?" name = false.
Proof.
  intros Hframe Hpath.
  rewrite (resolveError_fulfilled _ _ _ _ _ _ Hframe Hpath).
  eexists _, _, _. split; [reflexivity|]. split; [reflexivity|].
  apply occurs_join_stripped.
Qed.

Lemma resolveError_location_has_no_query_witness :
  ∃ message fields name,
    resolveError (Fulfilled [Sample.frame_a]) Sample.exn 0 (Some "base")
    = Fulfilled (message, Obj fields)
    ∧ get fields "filePath" = Prim (Str ("base" ++ "/" ++ name))
    ∧ occurs "?" name = false.
Proof.
  apply (resolveError_location_has_no_query [Sample.frame_a] Sample.exn 0
           (Some "base") Sample.frame_a "https://x/y/z/app.js?v=1");
    reflexivity.
Defined.

(** The first three segments of the file name are dropped whatever they
    are: a file name with at most two slashes (a bare "app.js", a
    root-relative "/js/app.js") leaves no name at all, and the file path of
    the location is the base path and a slash. *)
Theorem resolveError_short_path (stack : list StackFrame)
    (err : ExceptionLike) (firstFrameIndex : nat)
    (fileBasePath : option string) (frame : StackFrame) (path : string) :
  stack !! firstFrameIndex = Some frame →
  getFileName frame = Some path →
  (length (split "/" path) ≤ 3)%nat →
  ∃ message fields,
    resolveError (Fulfilled stack) err firstFrameIndex fileBasePath
    = Fulfilled (message, Obj fields)
    ∧ get fields "filePath" = Prim (Str (to_string fileBasePath ++ "/")).
Proof.
  intros Hframe Hpath Hshort.
  rewrite (resolveError_fulfilled _ _ _ _ _ _ Hframe Hpath).
  rewrite (drop_ge (split "/" path) 3) by lia.
  eexists _, _. split; reflexivity.
Qed.

Lemma resolveError_short_path_witness :
  ∃ message fields,
    resolveError (Fulfilled [Scene.short_frame]) Sample.exn 0 (Some "base")
    = Fulfilled (message, Obj fields)
    ∧ get fields "filePath" = Prim (Str "base/").
Proof.
  apply (resolveError_short_path [Scene.short_frame] Sample.exn 0
           (Some "base") Scene.short_frame "app.js?v=2");
    [reflexivity|reflexivity|simpl; lia].
Defined.

(** ** [start] with [disabled] *)

(** [disabled] is read as a boolean at [start]: started with [disabled:
    true] the reporter fulfils every report with [null] and calls nothing;
    started without it, or with [false], it is enabled, and an empty input
    is rejected. *)
Theorem start_reads_disabled (config : Config) (w : Window) (h : heap)
    (this : Reporter) (w' : Window) (h' : heap) :
  start config w h = inr (this, w', h') →
  (cfg_disabled config = Some true →
     ∀ amb err options store,
       report this amb err options store = (Fulfilled (Prim Null), [], store))
  ∧ (cfg_disabled config ≠ Some true →
     ∀ amb options store,
       report this amb RUndefined options store
       = (Rejected (ErrorObj "no error to report"), [], store)).
Proof.
  intros Hstart.
  destruct (start_fields _ _ _ _ _ _ Hstart)
    as (_ & _ & _ & _ & _ & _ & _ & _ & _ & Hd & _).
  split.
  - intros Hflag amb err options store. unfold report.
    by rewrite Hd, Hflag.
  - intros Hflag amb options store. unfold report. rewrite Hd.
    by destruct (cfg_disabled config) as [[|]|].
Qed.

Lemma start_reads_disabled_witness :
  ∃ this w' h',
    start Scene.disabled_config Scene.page_window Sample.store
    = inr (this, w', h')
    ∧ report this Sample.ok_ambient (RError Sample.exn) None h'
      = (Fulfilled (Prim Null), [], h').
Proof.
  eexists _, _, _. split; [reflexivity|].
  apply (start_reads_disabled Scene.disabled_config Scene.page_window
           Sample.store _ _ _ eq_refl).
  reflexivity.
Defined.
